(** * Line-profiler-V2: the wrapper dispatcher and the report renderer

    A shallow embedding of [profiler.py]: the four invocation wrappers of
    [MyLineProfiler] ([wrap_function], [wrap_classmethod], [wrap_coroutine],
    [wrap_generator]) over an explicit tracer state, and the report
    renderer ([show_func], [show_text], [print_stats]) over explicit
    output sinks.  Python's own machinery that the code leans on (floats,
    format specifications, the generator protocol, name lookup in the
    module namespace) is modelled in the first part of the file. *)

From Stdlib Require Import ZArith String Ascii List Lia SpecFloat.
From stdpp Require Import base option list gmap strings pretty sorting.
Import ListNotations.

Local Open Scope string_scope.
Local Open Scope list_scope.
Local Open Scope Z_scope.

(** ** Python values, exceptions and outcomes *)

(** The values the wrappers move around.  [VClass] stands for a class
    object or a builtin type, named by its qualified name. *)
Inductive pyval :=
| VNone
| VInt (z : Z)
| VStr (s : string)
| VClass (name : string).

Inductive exn :=
| StopIteration (value : pyval)
| RuntimeError (msg : string)
| TypeError (msg : string)
| ValueError (msg : string)
| NameError (name : string)
| ZeroDivisionError (msg : string)
| OverflowError (msg : string)
| KeyError
| UserError (name : string) (payload : pyval).

(** What evaluating an expression or a call ends in. *)
Inductive outcome (A : Type) :=
| Returned (a : A)
| Raised (e : exn).
Arguments Returned {A} a.
Arguments Raised {A} e.

Definition is_none (v : pyval) : bool :=
  match v with VNone => true | _ => false end.

Definition is_stop_iteration (e : exn) : bool :=
  match e with StopIteration _ => true | _ => false end.

(** ** Code with effects: a state that survives a raise

    [M St A] is a computation over a mutable state [St] that returns an [A]
    or raises.  What was done to the state before a raise stays done, as in
    Python: text already written to a stream is not taken back. *)
Definition M (St A : Type) : Type := St -> St * outcome A.

Definition ret {St A} (a : A) : M St A := fun s => (s, Returned a).
Definition raise {St A} (e : exn) : M St A := fun s => (s, Raised e).
Definition bind {St A B} (c : M St A) (k : A -> M St B) : M St B :=
  fun s =>
    match c s with
    | (s', Returned a) => k a s'
    | (s', Raised e) => (s', Raised e)
    end.
Definition lift {St A} (o : outcome A) : M St A := fun s => (s, o).

Declare Scope py_scope.
Delimit Scope py_scope with py.
Notation "x <- c ;; k" := (bind c (fun x => k))
  (at level 100, c at next level, right associativity) : py_scope.
Notation "c ;; k" := (bind c (fun _ => k))
  (at level 100, right associativity) : py_scope.
Local Open Scope py_scope.

(** [for x in xs: body x] *)
Fixpoint for_each {St A} (xs : list A) (body : A -> M St unit) : M St unit :=
  match xs with
  | [] => ret tt
  | x :: rest => body x ;; for_each rest body
  end.

(** ** Python floats: IEEE 754 binary64 *)
Module PyFloat.

Definition prec : Z := 53.
Definition emax : Z := 1024.
Definition float := spec_float.

Definition mul : float -> float -> float := SFmul prec emax.
Definition ieee_div : float -> float -> float := SFdiv prec emax.

Definition is_zero (x : float) : bool :=
  match x with S754_zero _ => true | _ => false end.

(** Truth value of a float: false exactly for [0.0] and [-0.0]. *)
Definition truthy (x : float) : bool := negb (is_zero x).

(** [float(z)], also the implicit conversion of an int operand: rounds to
    nearest, ties to even, and raises when the int is out of range. *)
Definition of_int (z : Z) : outcome float :=
  match binary_normalize prec emax z 0 false with
  | S754_infinity _ => Raised (OverflowError "int too large to convert to float")
  | x => Returned x
  end.

(** [x / y] on floats. *)
Definition div (x y : float) : outcome float :=
  if is_zero y then Raised (ZeroDivisionError "float division by zero")
  else Returned (ieee_div x y).

(** [a / b] on ints (true division): the correctly rounded quotient.  The
    quotient is taken with two guard bits and a sticky bit, then rounded. *)
Definition int_true_div (a b : Z) : outcome float :=
  if b =? 0 then Raised (ZeroDivisionError "division by zero")
  else if a =? 0 then Returned (S754_zero (b <? 0))
  else
    let k := Z.max 0 (prec + 3 + Z.log2 (Z.abs b) - Z.log2 (Z.abs a)) in
    let n := Z.shiftl (Z.abs a) k in
    let q := n / Z.abs b in
    let sticky := if n mod Z.abs b =? 0 then 0 else 1 in
    let m := 2 * q + sticky in
    let sm := if Bool.eqb (a <? 0) (b <? 0) then m else - m in
    match binary_normalize prec emax sm (- k - 1) false with
    | S754_infinity _ => Raised (OverflowError "integer division result too large for a float")
    | x => Returned x
    end.

(** [i * x] with an int on the left: the int is converted first. *)
Definition int_mul (i : Z) (x : float) : outcome float :=
  match of_int i with
  | Returned fi => Returned (mul fi x)
  | Raised e => Raised e
  end.

(** [x / i] with an int on the right: the int is converted first. *)
Definition div_int (x : float) (i : Z) : outcome float :=
  match of_int i with
  | Returned fi => div x fi
  | Raised e => Raised e
  end.

End PyFloat.

(** ** Python text formatting

    The part of the format-specification mini-language that the source
    uses: an optional sign flag, a width, a precision and a type letter
    ([6], [9], [12], [8], [-s], [6.3f], [5.1f] and [ 5.1f] with a leading
    space), and the [%g] conversion of the report's first line. *)
Module PyFormat.
Import PyFloat.

Record format_spec := {
  fs_sign : option ascii;       (* [+], [-] or a space *)
  fs_width : nat;
  fs_precision : option nat;
  fs_type : option ascii
}.

Definition is_digit (c : ascii) : bool :=
  let n := nat_of_ascii c in (48 <=? n)%nat && (n <=? 57)%nat.

Definition is_sign (c : ascii) : bool :=
  (Ascii.eqb c "+" || Ascii.eqb c "-" || Ascii.eqb c " ")%bool.

(** Reads a run of digits; [None] when there is none. *)
Fixpoint read_nat (s : string) (acc : option nat) : option nat * string :=
  match s with
  | String c rest =>
      if is_digit c
      then read_nat rest (Some (10 * default 0%nat acc + (nat_of_ascii c - 48))%nat)
      else (acc, s)
  | EmptyString => (acc, s)
  end.

Definition parse_spec (s : string) : option format_spec :=
  let '(sign, s1) :=
    match s with
    | String c rest => if is_sign c then (Some c, rest) else (None, s)
    | EmptyString => (None, s)
    end in
  let '(width, s2) := read_nat s1 None in
  let '(precision, s3) :=
    match s2 with
    | String "." rest =>
        match read_nat rest None with
        | (Some p, r) => (Some (Some p), r)
        | (None, _) => (None, s2)              (* a dot needs digits *)
        end
    | _ => (Some None, s2)
    end in
  match precision, s3 with
  | Some prec, EmptyString =>
      Some {| fs_sign := sign; fs_width := default 0%nat width;
              fs_precision := prec; fs_type := None |}
  | Some prec, String t EmptyString =>
      Some {| fs_sign := sign; fs_width := default 0%nat width;
              fs_precision := prec; fs_type := Some t |}
  | _, _ => None
  end.

Fixpoint spaces (n : nat) : string :=
  match n with O => "" | S n' => String " " (spaces n') end.

Fixpoint zeros (n : nat) : string :=
  match n with O => "" | S n' => String "0" (zeros n') end.

(** Left-aligned in [w] columns (the default for strings). *)
Definition ljust (w : nat) (s : string) : string :=
  s +:+ spaces (w - String.length s).

(** Right-aligned in [w] columns (the default for numbers). *)
Definition rjust (w : nat) (s : string) : string :=
  spaces (w - String.length s) +:+ s.

Definition invalid_spec {A} : outcome A :=
  Raised (ValueError "Invalid format specifier").

(** [format(s, spec)] for a string. *)
Definition format_str (spec : string) (s : string) : outcome string :=
  match parse_spec spec with
  | None => invalid_spec
  | Some fs =>
      match fs_sign fs with
      | Some " "%char => Raised (ValueError "Space not allowed in string format specifier")
      | Some _ => Raised (ValueError "Sign not allowed in string format specifier")
      | None =>
          match fs_type fs with
          | Some "s"%char | None =>
              let body :=
                match fs_precision fs with
                | Some p => substring 0 p s
                | None => s
                end in
              Returned (ljust (fs_width fs) body)
          | Some _ => Raised (ValueError "Unknown format code for object of type 'str'")
          end
      end
  end.

Definition sign_prefix (sign : option ascii) (negative : bool) : string :=
  if negative then "-"
  else match sign with
       | Some "+"%char => "+"
       | Some " "%char => " "
       | _ => ""
       end.

(** [num / den] rounded to the nearest integer, ties to even ([den > 0]). *)
Definition round_half_even_div (num den : Z) : Z :=
  let q := num / den in
  match (2 * (num mod den)) ?= den with
  | Lt => q
  | Gt => q + 1
  | Eq => if Z.even q then q else q + 1
  end.

(** [m * 2^e * 10^p], rounded to the nearest integer, ties to even. *)
Definition scaled (m : positive) (e : Z) (p : Z) : Z :=
  let '(num, den) :=
    if 0 <=? e then (Z.pos m * 2 ^ e, 1) else (Z.pos m, 2 ^ (- e)) in
  if 0 <=? p then round_half_even_div (num * 10 ^ p) den
  else round_half_even_div num (den * 10 ^ (- p)).

(** The decimal digits of [n >= 0] with a point before the last [p]. *)
Definition fixed_digits (p : nat) (n : Z) : string :=
  let ds := pretty (Z.to_N n) in
  let ds := zeros (S p - String.length ds) +:+ ds in
  let k := (String.length ds - p)%nat in
  match p with
  | O => ds
  | _ => substring 0 k ds +:+ "." +:+ substring k p ds
  end.

(** The unsigned text of a float in fixed-point presentation. *)
Definition fixed_text (p : nat) (x : float) : string :=
  match x with
  | S754_nan => "nan"
  | S754_infinity _ => "inf"
  | S754_zero _ => fixed_digits p 0
  | S754_finite _ m e => fixed_digits p (scaled m e (Z.of_nat p))
  end.

Definition sign_bit (x : float) : bool :=
  match x with
  | S754_zero s | S754_infinity s | S754_finite s _ _ => s
  | S754_nan => false
  end.

(** [format(x, spec)] for a float, presentation type [f]. *)
Definition format_float (spec : string) (x : float) : outcome string :=
  match parse_spec spec with
  | None => invalid_spec
  | Some fs =>
      match fs_type fs with
      | Some "f"%char =>
          let p := default 6%nat (fs_precision fs) in
          Returned (rjust (fs_width fs)
                      (sign_prefix (fs_sign fs) (sign_bit x) +:+ fixed_text p x))
      | _ => Raised (ValueError "Unknown format code for object of type 'float'")
      end
  end.

(** [format(z, spec)] for an int: decimal presentation, or the float
    presentation [f] after converting the int. *)
Definition format_int (spec : string) (z : Z) : outcome string :=
  match parse_spec spec with
  | None => invalid_spec
  | Some fs =>
      match fs_type fs, fs_precision fs with
      | (Some "d"%char | None), None =>
          Returned (rjust (fs_width fs)
                      (sign_prefix (fs_sign fs) (z <? 0) +:+ pretty (Z.to_N (Z.abs z))))
      | (Some "d"%char | None), Some _ =>
          Raised (ValueError "Precision not allowed in integer format specifier")
      | Some "f"%char, _ =>
          match of_int z with
          | Returned x => format_float spec x
          | Raised e => Raised e
          end
      | _, _ => Raised (ValueError "Unknown format code for object of type 'int'")
      end
  end.

(** Drops trailing zeros after the point, and then a trailing point. *)
Fixpoint strip_zeros_rev (cs : list ascii) : list ascii :=
  match cs with
  | "0"%char :: rest => strip_zeros_rev rest
  | "."%char :: rest => rest
  | _ => cs
  end.

Definition strip_trailing_zeros (s : string) : string :=
  if existsb (Ascii.eqb ".") (list_ascii_of_string s)
  then string_of_list_ascii (rev (strip_zeros_rev (rev (list_ascii_of_string s))))
  else s.

(** The least [j >= from] with [num * 10^j >= den], searched upwards. *)
Fixpoint first_scale (fuel : nat) (num den j : Z) : Z :=
  match fuel with
  | O => j
  | S fuel' => if den <=? num * 10 ^ j then j else first_scale fuel' num den (j + 1)
  end.

(** [floor (log10 (m * 2^e))]. *)
Definition decimal_exponent (m : positive) (e : Z) : Z :=
  if 0 <=? e + Z.log2 (Z.pos m) then
    Z.of_nat (String.length (pretty (Z.to_N (Z.shiftl (Z.pos m) e)))) - 1
  else - first_scale 400 (Z.pos m) (2 ^ (- e)) 1.

(** ['%g' % x]: six significant digits, trailing zeros removed, exponent
    form when the decimal exponent is below -4 or at least 6. *)
Definition percent_g (x : float) : string :=
  match x with
  | S754_nan => "nan"
  | S754_infinity s => if s then "-inf" else "inf"
  | S754_zero s => if s then "-0" else "0"
  | S754_finite s m e =>
      let x0 := decimal_exponent m e in
      let d0 := scaled m e (5 - x0) in
      let '(x1, d1) := if 1000000 <=? d0 then (x0 + 1, d0 / 10) else (x0, d0) in
      let body :=
        if ((-4 <=? x1) && (x1 <? 6))%bool
        then strip_trailing_zeros (fixed_digits (Z.to_nat (5 - x1)) d1)
        else strip_trailing_zeros (fixed_digits 5 d1)
             +:+ "e" +:+ (if x1 <? 0 then "-" else "+")
             +:+ (let ds := pretty (Z.to_N (Z.abs x1)) in
                  zeros (2 - String.length ds) +:+ ds) in
      (if s then "-" else "") +:+ body
  end.

End PyFormat.

(** ** Generators and coroutines

    A generator object (or a coroutine object: the same machine with other
    error messages) runs a body that is resumed with a sent value and then
    yields, returns or raises.  [send] is the object's protocol around the
    body, the same for user generators and for the wrappers below. *)
Module PyGen.

Inductive step (F : Type) :=
| Yield (v : pyval) (k : F)       (* suspends at a [yield], frame [k] kept *)
| Return (v : pyval)              (* the body returns *)
| Raise (e : exn).                (* the body raises *)
Arguments Yield {F} v k.
Arguments Return {F} v.
Arguments Raise {F} e.

Inductive gen_state (F : Type) :=
| Created (f : F)                 (* not started *)
| Suspended (f : F)               (* suspended at a yield *)
| Closed.                         (* finished, by return or by an exception *)
Arguments Created {F} f.
Arguments Suspended {F} f.
Arguments Closed {F}.

Inductive kind := Generator | Coroutine.

Definition kind_name (kd : kind) : string :=
  match kd with Generator => "generator" | Coroutine => "coroutine" end.

(** Runs the body once and applies the rules at its end: a return becomes
    [StopIteration], and a [StopIteration] that escapes the body becomes
    [RuntimeError] (PEP 479, the rule of Python 3.7 and later). *)
Definition run_body {F St} (kd : kind) (body : F -> pyval -> St -> St * step F)
    (f : F) (v : pyval) (s : St) : St * (gen_state F * outcome pyval) :=
  match body f v s with
  | (s', Yield y k) => (s', (Suspended k, Returned y))
  | (s', Return r) => (s', (Closed, Raised (StopIteration r)))
  | (s', Raise e) =>
      if is_stop_iteration e
      then (s', (Closed, Raised (RuntimeError (kind_name kd +:+ " raised StopIteration"))))
      else (s', (Closed, Raised e))
  end.

(** [g.send(v)]; [next(g)] is [g.send(None)]. *)
Definition send {F St} (kd : kind) (body : F -> pyval -> St -> St * step F)
    (g : gen_state F) (v : pyval) (s : St) : St * (gen_state F * outcome pyval) :=
  match g with
  | Created f =>
      if is_none v then run_body kd body f v s
      else (s, (g, Raised (TypeError ("can't send non-None value to a just-started "
                                        +:+ kind_name kd))))
  | Suspended f => run_body kd body f v s
  | Closed =>
      match kd with
      | Generator => (s, (Closed, Raised (StopIteration VNone)))
      | Coroutine => (s, (Closed, Raised (RuntimeError "cannot reuse already awaited coroutine")))
      end
  end.

(** Resumes an object once per sent value and collects what each
    resumption gave. *)
Fixpoint drive {O St} (snd_ : O -> pyval -> St -> St * (O * outcome pyval))
    (g : O) (inputs : list pyval) (s : St) : St * (O * list (outcome pyval)) :=
  match inputs with
  | [] => (s, (g, []))
  | v :: rest =>
      let '(s1, (g1, r)) := snd_ g v s in
      let '(s2, (g2, rs)) := drive snd_ g1 rest s1 in
      (s2, (g2, r :: rs))
  end.

End PyGen.

(** ** Callables *)

(** The arguments of a call: [*args] and [**kwds]. *)
Record call_args := { positional : list pyval; keywords : list (string * pyval) }.

(** [f(first, *args, **kwds)] *)
Definition with_first (first : pyval) (args : call_args) : call_args :=
  {| positional := first :: positional args; keywords := keywords args |}.

(** A plain function, seen from its caller. *)
Definition pyfunction : Type := call_args -> outcome pyval.

(** A generator function or an [async def] function: calling it binds the
    arguments to a fresh frame and runs nothing; the frame is then resumed. *)
Record resumable := {
  frame : Type;
  start : call_args -> outcome frame;
  resume : frame -> pyval -> PyGen.step frame
}.

(** A [classmethod] object: [__func__] is the function it wraps and
    [__class__] the object's own type, the builtin [classmethod] unless the
    object is an instance of a subclass of it. *)
Record classmethod_object := {
  cm_class : pyval;
  cm_func : pyfunction
}.

Definition builtin_classmethod : pyval := VClass "classmethod".

Inductive callable :=
| Function (name : string) (f : pyfunction)
| ClassMethod (name : string) (cm : classmethod_object)
| CoroutineFunction (name : string) (cf : resumable)
| GeneratorFunction (name : string) (gf : resumable).

Definition callable_name (func : callable) : string :=
  match func with
  | Function n _ | ClassMethod n _ | CoroutineFunction n _ | GeneratorFunction n _ => n
  end.

Definition is_coroutine (f : callable) : bool :=
  match f with CoroutineFunction _ _ => true | _ => false end.

Definition is_generator (f : callable) : bool :=
  match f with GeneratorFunction _ _ => true | _ => false end.

Definition is_classmethod (f : callable) : bool :=
  match f with ClassMethod _ _ => true | _ => false end.

(** Python's attribute lookup on a class, for the two kinds of attribute
    met here.  A classmethod object binds the class it is looked up on; a
    plain function looked up on a class is the function itself. *)
Definition invoke_classmethod (cls : pyval) (cm : classmethod_object)
    (args : call_args) : outcome pyval :=
  cm_func cm (with_first cls args).

Definition invoke_function_on_class {R} (cls : pyval) (f : call_args -> R)
    (args : call_args) : R :=
  f args.

(** ** The line tracer

    [LineProfiler], the base class, comes from the [line_profiler] package.
    Of it the wrappers use [add_function] and the context manager:
    [__enter__] is [enable_by_count] and [__exit__] is [disable_by_count],
    and [__exit__] never swallows an exception.  [trace] records the
    brackets in the order they were entered and left. *)
Module Tracer.

Inductive event := Enter | Exit.

Record tracer := {
  enable_count : nat;
  functions : list string;
  trace : list event
}.

Definition add_function (name : string) (t : tracer) : tracer :=
  {| enable_count := enable_count t;
     functions := functions t ++ [name];
     trace := trace t |}.

Definition enable_by_count (t : tracer) : tracer :=
  {| enable_count := S (enable_count t);
     functions := functions t;
     trace := trace t |}.

Definition disable_by_count (t : tracer) : tracer :=
  {| enable_count := Nat.pred (enable_count t);
     functions := functions t;
     trace := trace t |}.

Definition log (ev : event) (t : tracer) : tracer :=
  {| enable_count := enable_count t;
     functions := functions t;
     trace := trace t ++ [ev] |}.

Definition __enter__ (t : tracer) : tracer := log Enter (enable_by_count t).
Definition __exit__ (t : tracer) : tracer := log Exit (disable_by_count t).

(** [with self: body]: the bracket is left whatever the body ends in. *)
Definition with_self {X} (body : tracer -> tracer * X) : tracer -> tracer * X :=
  fun t =>
    let '(t1, x) := body (__enter__ t) in
    (__exit__ t1, x).

Definition fresh : tracer :=
  {| enable_count := 0; functions := []; trace := [] |}.

End Tracer.

(** ** The report: sinks, source text and table cells *)
Module Render.
Import PyFloat PyFormat.

Definition nl : string := String (ascii_of_nat 10) "".

(** Where text goes: [sys.stdout] or a stream object the caller passed.
    [Stream] is a stream object as most are, true in a condition;
    [FalsyStream] is one whose class makes it false ([__bool__] answering
    [False], or [__len__] answering [0]). *)
Inductive sink := Stdout | Stream (id : nat) | FalsyStream (id : nat).

(** [bool(stream)] for a stream object. *)
Definition sink_truth (stream : sink) : bool :=
  match stream with FalsyStream _ => false | _ => true end.

(** [if not stream: stream = sys.stdout], for a [stream] that is [None] or
    a stream object. *)
Definition or_stdout (stream : option sink) : sink :=
  match stream with
  | Some s => if sink_truth s then s else Stdout
  | None => Stdout
  end.

(** The state of the renderer: every [write], oldest first. *)
Definition written : Type := list (sink * string).

(** [stream.write(text)] *)
Definition write (stream : sink) (text : string) : M written unit :=
  fun log => (log ++ [(stream, text)], Returned tt).

(** The source-text collaborators.  [os.path.exists] and
    [linecache.getlines] answer without raising (a file that cannot be read
    has no lines); [inspect.getblock] returns the lines of the block, or
    raises when the tokenizer does (a bracket or a string that the lines
    leave open). *)
Record source_text := {
  path_exists : string -> bool;
  getlines : string -> list string;
  getblock : list string -> outcome (list string)
}.

(** A line statistic [(lineno, nhits, time)], the time in ticks. *)
Definition linestat : Type := Z * Z * Z.

(** A profiled target [(filename, start_lineno, func_name)]. *)
Definition key : Type := string * Z * string.

(** [sum(time for _, _, time in timings)] *)
Definition total (timings : list linestat) : Z :=
  fold_left (fun acc '(_, _, time) => acc + time) timings 0.

(** [lines[i:]] with Python's treatment of a negative or too large [i]. *)
Definition slice_from {A} (lines : list A) (i : Z) : list A :=
  let n := Z.of_nat (length lines) in
  let i' := if i <? 0 then Z.max 0 (i + n) else i in
  drop (Z.to_nat i') lines.

Definition is_space (c : ascii) : bool :=
  let n := nat_of_ascii c in
  (((9 <=? n) && (n <=? 13)) || ((28 <=? n) && (n <=? 32)))%nat.

Fixpoint drop_spaces (cs : list ascii) : list ascii :=
  match cs with
  | c :: rest => if is_space c then drop_spaces rest else cs
  | [] => []
  end.

(** [line.rstrip()], for the white space of ASCII. *)
Definition rstrip (line : string) : string :=
  string_of_list_ascii (rev (drop_spaces (rev (list_ascii_of_string line)))).

(** ["=" * n] *)
Fixpoint rule (n : nat) : string :=
  match n with O => "" | S n' => String "=" (rule n') end.

(** A table cell is an int (the hit count) or a string (a formatted
    number, or the empty string of a line without statistics). *)
Inductive cell := CInt (z : Z) | CStr (s : string).

Definition row : Type := cell * cell * cell * cell.

Definition empty : row := (CStr "", CStr "", CStr "", CStr "").

Definition format_cell (spec : string) (c : cell) : outcome string :=
  match c with
  | CInt z => format_int spec z
  | CStr s => format_str spec s
  end.

(** The scale of the displayed times: [if not output_unit: output_unit =
    unit] and then [scalar = unit / output_unit]. *)
Definition scale_factor (unit : float) (output_unit : option float) : outcome float :=
  let output_unit :=
    match output_unit with
    | Some ou => if truthy ou then ou else unit
    | None => unit
    end in
  div unit output_unit.

(** The percentage cell of a line:
    ['' if sum(...) == 0 else f'{100 * time / sum(...): 5.1f}']. *)
Definition percent_cell {St} (timings : list linestat) (time : Z) : M St string :=
  if total timings =? 0 then ret ""
  else
    q <- lift (int_true_div (100 * time) (total timings)) ;;
    lift (format_float " 5.1f" q).

(** One pass of the loop that fills [d]: the value stored for a line,
    [(nhits, f"{time * scalar:5.1f}",
      f"{float(time) * scalar / nhits:5.1f}", percent)]. *)
Definition line_row {St} (scalar : float) (timings : list linestat)
    (ls : linestat) : M St row :=
  let '(_, nhits, time) := ls in
  percent <- percent_cell timings time ;;
  scaled_time <- lift (int_mul time scalar) ;;
  time_text <- lift (format_float "5.1f" scaled_time) ;;
  float_time <- lift (of_int time) ;;
  per_hit <- lift (div_int (mul float_time scalar) nhits) ;;
  per_hit_text <- lift (format_float "5.1f" per_hit) ;;
  ret (CInt nhits, CStr time_text, CStr per_hit_text, CStr percent).

(** [d = {}] and then [for lineno, nhits, time in timings: d[lineno] = ...] *)
Fixpoint fill_rows {St} (scalar : float) (timings : list linestat)
    (todo : list linestat) (d : gmap Z row) : M St (gmap Z row) :=
  match todo with
  | [] => ret d
  | ls :: rest =>
      r <- line_row scalar timings ls ;;
      fill_rows scalar timings rest (<[ls.1.1 := r]> d)
  end.

(** The header line of the table. *)
Definition table_header {St} : M St string :=
  c1 <- lift (format_str "6" "Line #") ;;
  c2 <- lift (format_str "9" "Hits") ;;
  c3 <- lift (format_str "12" "Time") ;;
  c4 <- lift (format_str "8" "Per Hit") ;;
  c5 <- lift (format_str "8" "% Time") ;;
  c6 <- lift (format_str "-s" "Line Contents") ;;
  ret (c1 +:+ " " +:+ c2 +:+ " " +:+ c3 +:+ " " +:+ c4 +:+ " " +:+ c5 +:+ "  " +:+ c6).

(** One line of the table. *)
Definition table_line {St} (d : gmap Z row) (lineno : Z) (line : string) : M St string :=
  let '(nhits, time, per_hit, percent) := default empty (d !! lineno) in
  c1 <- lift (format_int "6" lineno) ;;
  c2 <- lift (format_cell "9" nhits) ;;
  c3 <- lift (format_cell "12" time) ;;
  c4 <- lift (format_cell "8" per_hit) ;;
  c5 <- lift (format_cell "8" percent) ;;
  c6 <- lift (format_str "-s" (rstrip line)) ;;
  ret (c1 +:+ " " +:+ c2 +:+ " " +:+ c3 +:+ " " +:+ c4 +:+ " " +:+ c5 +:+ " " +:+ c6).

End Render.

(** ** [MyLineProfiler]: the invocation wrappers and [show_func] *)
Module MyLineProfiler.
Import PyGen Tracer.

(** User code leaves the tracer alone. *)
Definition user_body (rf : resumable)
    : frame rf -> pyval -> tracer -> tracer * step (frame rf) :=
  fun f v t => (t, resume rf f v).

(** [wrap_function]:  [with self: result = func( *args, **kwds)] and then
    [return result]. *)
Definition wrap_function (func : pyfunction) : call_args -> M tracer pyval :=
  fun args =>
    result <- with_self (lift (func args)) ;;
    ret result.

(** [wrap_classmethod]:
    [with self: result = func.__func__(func.__class__, *args, **kwds)]. *)
Definition wrap_classmethod (func : classmethod_object) : call_args -> M tracer pyval :=
  fun args =>
    result <- with_self (lift (cm_func func (with_first (cm_class func) args))) ;;
    ret result.

(** The frame of the wrapper of [wrap_generator]: before its first
    resumption it holds the call's arguments; afterwards it is suspended at
    one of its two [yield]s, which both continue at the head of the
    [while True] loop, and it holds the inner generator [g]. *)
Inductive generator_wrapper_frame (F : Type) :=
| GWStart (args : call_args)
| GWYielded (g : gen_state F).
Arguments GWStart {F} args.
Arguments GWYielded {F} g.

(** After [with self: item = g.send(input_)]: the item is yielded, and an
    exception leaves the wrapper's body. *)
Definition yield_item {F} (r : tracer * (gen_state F * outcome pyval))
    : tracer * step (generator_wrapper_frame F) :=
  match r with
  | (t, (g, Returned item)) => (t, Yield item (GWYielded g))
  | (t, (_, Raised e)) => (t, Raise e)
  end.

(** The body of the wrapper of [wrap_generator], resumed with [input_]. *)
Definition wrap_generator_body (func : resumable)
    (fr : generator_wrapper_frame (frame func)) (input_ : pyval) (t : tracer)
    : tracer * step (generator_wrapper_frame (frame func)) :=
  match fr with
  | GWStart args =>
      (* g = func( *args, **kwds) *)
      match start func args with
      | Raised e => (t, Raise e)
      | Returned f0 =>
          (* with self: item = next(g) *)
          yield_item (with_self (send Generator (user_body func) (Created f0) VNone) t)
      end
  | GWYielded g =>
      (* with self: item = g.send(input_) *)
      yield_item (with_self (send Generator (user_body func) g input_) t)
  end.

(** The frame of the wrapper of [wrap_coroutine]: not started, or
    suspended inside [await func( *args, **kwds)] on the inner coroutine. *)
Inductive coroutine_wrapper_frame (F : Type) :=
| CWStart (args : call_args)
| CWAwaiting (co : gen_state F).
Arguments CWStart {F} args.
Arguments CWAwaiting {F} co.

(** One step of [await co]: what the inner coroutine yields is passed on
    and the wrapper stays suspended inside its [with] block; the inner
    coroutine's return value is the value of the [await], after which the
    block is left and the wrapper returns it; an exception leaves the block
    and the wrapper. *)
Definition await_step {F} (r : tracer * (gen_state F * outcome pyval))
    : tracer * step (coroutine_wrapper_frame F) :=
  match r with
  | (t, (co, Returned y)) => (t, Yield y (CWAwaiting co))
  | (t, (_, Raised (StopIteration result))) => (__exit__ t, Return result)
  | (t, (_, Raised e)) => (__exit__ t, Raise e)
  end.

(** The body of the wrapper of [wrap_coroutine]:
    [with self: result = await func( *args, **kwds)] and [return result]. *)
Definition wrap_coroutine_body (func : resumable)
    (fr : coroutine_wrapper_frame (frame func)) (v : pyval) (t : tracer)
    : tracer * step (coroutine_wrapper_frame (frame func)) :=
  match fr with
  | CWStart args =>
      let t1 := __enter__ t in
      match start func args with
      | Raised e => (__exit__ t1, Raise e)
      | Returned f0 =>
          await_step (send Coroutine (user_body func) (Created f0) VNone t1)
      end
  | CWAwaiting co =>
      await_step (send Coroutine (user_body func) co v t)
  end.

(** What [__call__] hands back: a plain function, or a generator function
    or coroutine function whose call makes a fresh object in its first
    state. *)
Inductive wrapper :=
| WFunction (w : call_args -> M tracer pyval)
| WGenerator (func : resumable)
| WCoroutine (func : resumable).

Definition wrap_generator (func : resumable) : wrapper := WGenerator func.
Definition wrap_coroutine (func : resumable) : wrapper := WCoroutine func.

(** Calling the wrapper of a generator function or of a coroutine function:
    [*args, **kwds] take any arguments and no code runs yet. *)
Definition call_generator_wrapper (func : resumable) (args : call_args)
    : gen_state (generator_wrapper_frame (frame func)) :=
  Created (GWStart args).

Definition call_coroutine_wrapper (func : resumable) (args : call_args)
    : gen_state (coroutine_wrapper_frame (frame func)) :=
  Created (CWStart args).

(** [send] on the two kinds of wrapper object. *)
Definition wrapped_generator_send (func : resumable) :=
  send Generator (wrap_generator_body func).

Definition wrapped_coroutine_send (func : resumable) :=
  send Coroutine (wrap_coroutine_body func).

(** [send] on the objects of the unwrapped callables. *)
Definition generator_send (func : resumable) :=
  send (St := tracer) Generator (user_body func).

Definition coroutine_send (func : resumable) :=
  send (St := tracer) Coroutine (user_body func).

(** [__call__]: registers the callable, then wraps it by its shape.  The
    source tests [is_classmethod], [is_coroutine] and [is_generator] in this
    order and falls back on [wrap_function]; a callable has one shape, so
    the tests read as one case analysis. *)
Definition __call__ (func : callable) : tracer -> tracer * wrapper :=
  fun t =>
    let t1 := add_function (callable_name func) t in
    match func with
    | ClassMethod _ cm => (t1, WFunction (wrap_classmethod cm))
    | CoroutineFunction _ cf => (t1, wrap_coroutine cf)
    | GeneratorFunction _ gf => (t1, wrap_generator gf)
    | Function _ f => (t1, WFunction (wrap_function f))
    end.

(** *** [show_func], defined in the body of the class *)
Import PyFloat PyFormat Render.

Definition show_func (src : source_text)
    (filename : string) (start_lineno : Z) (func_name : string)
    (timings : list linestat) (unit : float)
    (output_unit : option float) (stream : option sink) (stripzeros : bool)
    : M written () :=
  let stream := or_stdout stream in
  if negb (path_exists src filename) then
    write stream ("Could not find file " +:+ filename +:+ nl)
  else
    let total_time := total timings in
    if stripzeros && (total_time =? 0) then ret tt
    else
      scalar <- lift (scale_factor unit output_unit) ;;
      scaled_total <- lift (int_mul total_time scalar) ;;
      total_text <- lift (format_float "6.3f" scaled_total) ;;
      write stream ("Total time in " +:+ func_name +:+ ": " +:+ total_text +:+ " s" +:+ nl) ;;
      write stream ("File: " +:+ filename +:+ nl) ;;
      write stream ("Function: " +:+ func_name +:+ " at line "
                      +:+ pretty start_lineno +:+ nl) ;;
      let all_lines := getlines src filename in
      sublines <- lift (getblock src (slice_from all_lines (start_lineno - 1))) ;;
      d <- fill_rows scalar timings timings ∅ ;;
      header <- table_header ;;
      write stream (nl +:+ header +:+ nl) ;;
      write stream (rule (String.length header) +:+ nl) ;;
      for_each (zip (seqZ start_lineno (Z.of_nat (length sublines))) sublines)
        (fun '(lineno, line) =>
           txt <- table_line d lineno line ;;
           write stream (txt +:+ nl)) ;;
      write stream nl.

End MyLineProfiler.

(** ** The module namespace and [show_text] *)
Module Report.
Import PyFloat PyFormat Render.

(** The call signature of [show_func]. *)
Definition show_func_type : Type :=
  string -> Z -> string -> list linestat -> float ->
  option float -> option sink -> bool -> M written ().

(** What a global name can be bound to: a function that takes
    [show_func]'s arguments, or some other object. *)
Inductive global_object :=
| ReportFunction (f : show_func_type)
| Other (what : string).

Definition namespace : Type := gmap string global_object.

(** The names bound at the top level of [profiler.py] once the module has
    run: its imports, the three predicates, the class, [show_text] and the
    test code at the end.  [show_func] is bound in the body of the class
    [MyLineProfiler], not here. *)
Definition module_globals : namespace :=
  list_to_map [
    ("functools", Other "module"); ("inspect", Other "module");
    ("linecache", Other "module"); ("os", Other "module");
    ("sys", Other "module"); ("LineProfiler", Other "type");
    ("is_coroutine", Other "function"); ("is_generator", Other "function");
    ("is_classmethod", Other "function"); ("MyLineProfiler", Other "type");
    ("show_text", Other "function"); ("profile", Other "LineProfiler");
    ("call_a", Other "function"); ("call_b", Other "function");
    ("testfunc", Other "function"); ("main", Other "function")
  ].

(** The attributes bound in the body of the class. *)
Definition class_namespace (src : source_text) : namespace :=
  list_to_map [
    ("__call__", Other "function"); ("wrap_classmethod", Other "function");
    ("wrap_coroutine", Other "function"); ("wrap_generator", Other "function");
    ("wrap_function", Other "function"); ("print_stats", Other "function");
    ("add_module", Other "function");
    ("show_func", ReportFunction (MyLineProfiler.show_func src))
  ].

(** The builtins the module's code names. *)
Definition builtins : namespace :=
  list_to_map [
    ("isinstance", Other "builtin_function_or_method");
    ("classmethod", Other "type"); ("next", Other "builtin_function_or_method");
    ("sum", Other "builtin_function_or_method"); ("float", Other "type");
    ("len", Other "builtin_function_or_method"); ("range", Other "type");
    ("zip", Other "type"); ("sorted", Other "builtin_function_or_method");
    ("print", Other "builtin_function_or_method")
  ].

(** A name used in a function that is not one of its locals is looked up
    when the function runs: in the module's globals, then in the builtins. *)
Definition load_global {St : Type} (globals : namespace) (name : string) : M St global_object :=
  match globals !! name with
  | Some o => ret o
  | None =>
      match builtins !! name with
      | Some o => ret o
      | None => raise (NameError name)
      end
  end.

(** Calling what a name is bound to with [show_func]'s arguments. *)
Definition as_report_function {St : Type} (o : global_object) : M St show_func_type :=
  match o with
  | ReportFunction f => ret f
  | Other what => raise (TypeError ("'" +:+ what +:+ "' object cannot take these arguments"))
  end.

(** Tuples compare lexicographically, strings by code point. *)
Definition key_leb (a b : key) : bool :=
  let '(fn1, lineno1, name1) := a in
  let '(fn2, lineno2, name2) := b in
  match String.compare fn1 fn2 with
  | Lt => true
  | Gt => false
  | Eq =>
      match lineno1 ?= lineno2 with
      | Lt => true
      | Gt => false
      | Eq => String.leb name1 name2
      end
  end.

Definition item_le (a b : key * list linestat) : Prop := key_leb a.1 b.1 = true.

#[export] Instance item_le_dec : RelDecision item_le :=
  fun a b => decide (key_leb a.1 b.1 = true).

(** [sorted(stats.items())]: the keys of a dict differ, so the order of
    the keys decides. *)
Definition sorted_items (stats : gmap key (list linestat))
    : list (key * list linestat) :=
  merge_sort item_le (map_to_list stats).

(** [stats[fn, lineno, name]] *)
Definition getitem {St : Type} (stats : gmap key (list linestat)) (k : key)
    : M St (list linestat) :=
  match stats !! k with
  | Some timings => ret timings
  | None => raise KeyError
  end.

Definition timer_unit_line (u : float) : string :=
  "Timer unit: " +:+ percent_g u +:+ " s" +:+ nl +:+ nl.

(** [show_text], run with the module's namespace as it is at the call. *)
Definition show_text (globals : namespace)
    (stats : gmap key (list linestat)) (unit : float)
    (output_unit : option float) (stream : option sink) (stripzeros : bool)
    : M written () :=
  let stream := default Stdout stream in
  match output_unit with
  | Some ou => write stream (timer_unit_line ou)
  | None => write stream (timer_unit_line unit)
  end ;;
  for_each (sorted_items stats)
    (fun '((fn, lineno, name), _) =>
       callee <- load_global globals "show_func" ;;
       timings <- getitem stats (fn, lineno, name) ;;
       f <- as_report_function callee ;;
       f fn lineno name timings unit output_unit (Some stream) stripzeros).

(** What [get_stats] of the tracer returns. *)
Record line_stats := {
  stats_timings : gmap key (list linestat);
  stats_unit : float
}.

(** [print_stats], a method of [MyLineProfiler]; [stats] is what
    [self.get_stats()] returned. *)
Definition print_stats (globals : namespace) (stats : line_stats)
    (stream : option sink) (output_unit : option float) (stripzeros : bool)
    : M written () :=
  show_text globals (stats_timings stats) (stats_unit stats)
    output_unit stream stripzeros.

End Report.

(** ** Example callables and inputs *)
Module Examples.
Import PyGen PyFloat Render.

Definition no_args : call_args := {| positional := []; keywords := [] |}.

(** [def whoami(cls): return cls] *)
Definition whoami : pyfunction :=
  fun args =>
    match positional args with
    | [cls] => Returned cls
    | _ => Raised (TypeError "whoami() takes exactly 1 positional argument")
    end.

(** [whoami] under the [@classmethod] decorator. *)
Definition whoami_method : classmethod_object :=
  {| cm_class := builtin_classmethod; cm_func := whoami |}.

(** [def one_shot(): yield 1].  The frame counts the resumptions. *)
Definition one_shot : resumable :=
  {| frame := nat;
     start := fun _ => Returned 0%nat;
     resume := fun n _ =>
       match n with
       | O => Yield (VInt 1) 1%nat
       | _ => Return VNone
       end |}.

(** [def nothing(): return] followed by an unreachable [yield]: a
    generator that is exhausted on its first resumption. *)
Definition nothing : resumable :=
  {| frame := ();
     start := fun _ => Returned ();
     resume := fun _ _ => Return VNone |}.

(** [async def answer(): return 42] after one suspension. *)
Definition answer : resumable :=
  {| frame := nat;
     start := fun _ => Returned 0%nat;
     resume := fun n _ =>
       match n with
       | O => Yield VNone 1%nat
       | _ => Return (VInt 42)
       end |}.

(** [def boom(): raise UserError("boom")] *)
Definition boom : pyfunction :=
  fun _ => Raised (UserError "boom" VNone).

(** The float [1e-06], a usual native timer unit, and a thousandth of it
    as Python computes [1e-06 / 1000]. *)
Definition microsecond : float := S754_finite false 4722366482869645 (-72).

(** A source tree with one file, [/a.py], whose block at line 1 has two
    lines. *)
Definition one_file : source_text :=
  {| path_exists := fun f => String.eqb f "/a.py";
     getlines := fun f =>
       if String.eqb f "/a.py" then ["def f():"; "    return 1"; ""; "x = f()"] else [];
     getblock := fun lines => Returned (take 2 lines) |}.

(** A statistics mapping with the one target [f] of [/a.py]. *)
Definition one_target : gmap key (list linestat) :=
  {[ ("/a.py", 1, "f") := [(1, 1, 5); (2, 1, 10)] ]}.

(** The same with a second target whose file is gone. *)
Definition two_targets : gmap key (list linestat) :=
  <[ ("/gone.py", 1, "g") := [(1, 1, 7)] ]> one_target.

(** The scale [1e-06 / 1e-06] and the scale [1e-06 / (1e-06 / 1000)]. *)
Definition scale_one : float := S754_finite false 4503599627370496 (-52).



End Examples.

(** ** What the statements below are written with *)
Module Relating.
Import PyGen PyFloat PyFormat Tracer Render MyLineProfiler.

(** The wrapper object that goes with a state of the inner generator. *)
Definition mirror {F} (args : call_args) (g : gen_state F)
    : gen_state (generator_wrapper_frame F) :=
  match g with
  | Created _ => Created (GWStart args)
  | Suspended k => Suspended (GWYielded (Suspended k))
  | Closed => Closed
  end.

(** What the caller of the wrapper sees for an outcome of a resumption
    of the inner generator that was not closed before. *)
Definition seen_through_wrapper (r : outcome pyval) : outcome pyval :=
  match r with
  | Raised (StopIteration _) => Raised (RuntimeError "generator raised StopIteration")
  | _ => r
  end.

(** A generator not yet started was made by a call with [args]. *)
Definition starts_as (func : resumable) (args : call_args)
    (g : gen_state (frame func)) : Prop :=
  match g with
  | Created f0 => start func args = Returned f0
  | _ => True
  end.

(** The wrapper coroutine that goes with a state of the inner coroutine. *)
Definition cmirror {F} (args : call_args) (co : gen_state F)
    : gen_state (coroutine_wrapper_frame F) :=
  match co with
  | Created _ => Created (CWStart args)
  | Suspended k => Suspended (CWAwaiting (Suspended k))
  | Closed => Closed
  end.




(** Computations that only compute: they leave the state as it is. *)
Definition pure {St A} (c : M St A) : Prop := forall s, (c s).1 = s.

(** The three lines that open a block. *)
Definition block_heading (stream : sink) (filename : string) (start_lineno : Z)
    (func_name total_text : string) : written :=
  [ (stream, "Total time in " +:+ func_name +:+ ": " +:+ total_text +:+ " s" +:+ nl);
    (stream, "File: " +:+ filename +:+ nl);
    (stream, "Function: " +:+ func_name +:+ " at line " +:+ pretty start_lineno +:+ nl) ].









End Relating.

(** ** [add_module], the bulk registration of [MyLineProfiler] *)
Module Registration.
Import Tracer.

(** What a namespace ([mod.__dict__], or the [__dict__] of a class) can
    hold: a function ([inspect.isfunction]), a class ([inspect.isclass])
    with its own [__dict__], or anything else, such as a [classmethod] or
    [staticmethod] object, a builtin, a module or plain data. *)
#[warnings="-register-all"]
Inductive pyobject :=
| OFunction (name : string)
| OClass (name : string) (members : list (string * pyobject))
| OOther (what : string).

Definition isclass (o : pyobject) : bool :=
  match o with OClass _ _ => true | _ => false end.

Definition isfunction (o : pyobject) : bool :=
  match o with OFunction _ => true | _ => false end.

Definition object_name (o : pyobject) : string :=
  match o with OFunction n | OClass n _ => n | OOther w => w end.

(** [item.__dict__] *)
Definition class_dict (o : pyobject) : list (string * pyobject) :=
  match o with OClass _ members => members | _ => [] end.

(** The inner loop, [for k, v in item.__dict__.items()], on the tracer and
    the counter [nfuncsadded]. *)
Definition add_members (members : list (string * pyobject)) (acc : tracer * Z)
    : tracer * Z :=
  fold_left
    (fun acc kv =>
       if isfunction kv.2
       then (add_function (object_name kv.2) acc.1, acc.2 + 1)
       else acc)
    members acc.

(** [add_module]: returns the tracer after the registrations and the
    counter. *)
Definition add_module (mod_dict : list (string * pyobject)) (t : tracer)
    : tracer * Z :=
  fold_left
    (fun acc entry =>
       let item := entry.2 in
       if isclass item then add_members (class_dict item) acc
       else if isfunction item
            then (add_function (object_name item) acc.1, acc.2 + 1)
            else acc)
    mod_dict (t, 0).

End Registration.

(** ** The decorator on an already decorated function *)
Module Stacked.
Import Tracer.

(** [wrap_function] again, for a [func] that touches the tracer itself,
    as the wrapper of another decorated function does. *)
Definition wrap_function_around (func : call_args -> M tracer pyval)
    : call_args -> M tracer pyval :=
  fun args =>
    result <- with_self (func args) ;;
    ret result.

(** The decorator applied [n] times to a plain function. *)
Fixpoint decorate (n : nat) (func : pyfunction) : call_args -> M tracer pyval :=
  match n with
  | O => fun args => lift (func args)
  | S k => wrap_function_around (decorate k func)
  end.

End Stacked.

(** ** More of what the statements are written with *)
Module Relating2.
Import PyGen PyFloat PyFormat Tracer Render MyLineProfiler Report Registration.

(** A computation that only computes: it leaves every state as it is and
    ends the same way from every state. *)
Definition steady {St A} (c : M St A) : Prop :=
  exists o, forall s, c s = (s, o).

(** Whether [g.send(v)] runs the body of the generator [g]. *)
Definition resumes_inner {F} (g : gen_state F) (v : pyval) : bool :=
  match g with
  | Created _ => is_none v
  | Suspended _ => true
  | Closed => false
  end.

(** The functions among the members of a class. *)
Definition member_functions (members : list (string * pyobject)) : list string :=
  flat_map (fun kv => match kv.2 with OFunction n => [n] | _ => [] end) members.

(** The functions that are items of a namespace or direct members of a
    class that is an item of it. *)
Definition direct_functions (mod_dict : list (string * pyobject)) : list string :=
  flat_map
    (fun entry =>
       match entry.2 with
       | OFunction n => [n]
       | OClass _ members => member_functions members
       | OOther _ => []
       end)
    mod_dict.

(** A target whose block [show_func] leaves without raising: its file is
    missing, or [stripzeros] is set and its total is zero. *)
Definition skipped (src : source_text) (stripzeros : bool)
    (item : key * list linestat) : Prop :=
  path_exists src item.1.1.1 = false
  \/ (stripzeros = true /\ total item.2 = 0).

(** A module namespace in which [show_func] is bound to the function of
    the class, as after [show_func = MyLineProfiler.show_func]. *)
Definition binds_show_func (src : source_text) (globals : namespace) : Prop :=
  globals !! "show_func" = Some (ReportFunction (show_func src)).

End Relating2.

(** ** More example inputs *)
Module Examples2.
Import PyGen PyFloat Render Report Registration MyLineProfiler.

(** [def picky(x): yield x]: it cannot be called without an argument. *)
Definition picky : resumable :=
  {| frame := pyval;
     start := fun args =>
       match positional args with
       | [x] => Returned x
       | _ => Raised (TypeError "picky() missing 1 required positional argument: 'x'")
       end;
     resume := fun x _ => Yield x x |}.

(** A module with a function, a class holding a method, a classmethod and
    a nested class, and a constant. *)
Definition sample_module : list (string * pyobject) :=
  [ ("helper", OFunction "helper");
    ("Model", OClass "Model"
       [ ("fit", OFunction "fit");
         ("build", OOther "classmethod");
         ("Inner", OClass "Inner" [("deep", OFunction "deep")]) ]);
    ("LIMIT", OOther "int") ].

(** The module namespace with [show_func] bound at its top level. *)
Definition patched_globals : namespace :=
  <["show_func" := ReportFunction (show_func Examples.one_file)]> module_globals.

(** Statistics whose blocks are all left out: one file is gone, the other
    target has a zero total. *)
Definition quiet_targets : gmap key (list linestat) :=
  <[ ("/gone.py", 1, "g") := [(1, 1, 7)] ]>
    {[ ("/a.py", 1, "f") := [(1, 1, 0); (2, 1, 0)] ]}.

End Examples2.

(** * Properties of the wrappers *)
Section WrapperFacts.
Import PyGen Tracer MyLineProfiler Examples Relating.

(** A bracket around code that leaves the tracer alone restores the
    activation count and adds one [Enter] and one [Exit] to the trace. *)
Lemma bracket_count t : enable_count (__exit__ (__enter__ t)) = enable_count t.
Proof. reflexivity. Qed.


Lemma with_self_lift {A} (o : outcome A) t :
  with_self (lift o) t = (__exit__ (__enter__ t), o).
Proof. reflexivity. Qed.

Lemma wrap_function_run (f : pyfunction) args t :
  wrap_function f args t = (__exit__ (__enter__ t), f args).
Proof.
  unfold wrap_function, bind. rewrite with_self_lift.
  now destruct (f args).
Qed.

Lemma wrap_classmethod_run (cm : classmethod_object) args t :
  wrap_classmethod cm args t
  = (__exit__ (__enter__ t), cm_func cm (with_first (cm_class cm) args)).
Proof.
  unfold wrap_classmethod, bind. rewrite with_self_lift.
  now destruct (cm_func cm _).
Qed.

(** [__call__] picks the wrapper as the three predicates of the source say. *)
Lemma call_dispatch (func : callable) t :
  match (__call__ func t).2 with
  | WFunction _ =>
      is_classmethod func = true
      \/ (is_classmethod func = false /\ is_coroutine func = false
          /\ is_generator func = false)
  | WCoroutine _ => is_classmethod func = false /\ is_coroutine func = true
  | WGenerator _ =>
      is_classmethod func = false /\ is_coroutine func = false
      /\ is_generator func = true
  end.
Proof. destruct func; cbn; auto. Qed.

(** The wrapper of a plain function gives what the function gives. *)
Lemma wrap_function_same_outcome (f : pyfunction) args t :
  (wrap_function f args t).2 = f args.
Proof. now rewrite wrap_function_run. Qed.




(** *** The generator wrapper against the generator it wraps *)

Lemma wrapped_generator_step (func : resumable) args g v t :
  starts_as func args g ->
  let inner := generator_send func g v t in
  let outer := wrapped_generator_send func (mirror args g) v t in
  outer.2.1 = mirror args inner.2.1
  /\ outer.2.2 = match g with
                 | Closed => inner.2.2
                 | _ => seen_through_wrapper inner.2.2
                 end.
Proof.
  intros Hstart.
  destruct g as [f|f|]; cbn in Hstart; [destruct v; try (now cbn) | |now cbn].
  all: cbv [wrapped_generator_send generator_send send run_body wrap_generator_body
            with_self yield_item user_body mirror is_none].
  all: rewrite ?Hstart.
  all: match goal with
       | |- context [resume ?fn ?a ?b] => destruct (resume fn a b) as [y k|r|e]
       end; cbn; auto.
  all: destruct e; cbn; auto.
Qed.

(** The outcomes of user code do not depend on the tracer. *)
Lemma user_send_any_tracer kd (func : resumable) g v (t t' : tracer) :
  (send kd (user_body func) g v t).2 = (send kd (user_body func) g v t').2.
Proof.
  destruct g as [f|f|]; cbn; unfold run_body, user_body;
    repeat (try destruct (is_none v); try destruct (resume func f v);
            try destruct (is_stop_iteration e); try destruct kd; cbn; try reflexivity).
Qed.

Lemma user_drive_any_tracer kd (func : resumable) inputs :
  forall g (t t' : tracer),
    (drive (send kd (user_body func)) g inputs t).2
    = (drive (send kd (user_body func)) g inputs t').2.
Proof.
  induction inputs as [|v rest IH]; intros g t t'; [reflexivity|].
  cbn [drive].
  pose proof (user_send_any_tracer kd func g v t t') as Hs.
  destruct (send kd (user_body func) g v t) as [t1 [g1 r1]].
  destruct (send kd (user_body func) g v t') as [t1' [g1' r1']].
  cbn in Hs. injection Hs as <- <-.
  specialize (IH g1 t1 t1').
  destruct (drive (send kd (user_body func)) g1 rest t1) as [t2 [g2 rs]].
  destruct (drive (send kd (user_body func)) g1 rest t1') as [t2' [g2' rs']].
  cbn in IH. injection IH as <- <-. reflexivity.
Qed.

Lemma user_send_keeps_start kd (func : resumable) args g v (t : tracer) :
  starts_as func args g ->
  starts_as func args (send kd (user_body func) g v t).2.1.
Proof.
  intros H. destruct g as [f|f|]; cbn; unfold run_body, user_body;
    repeat (try destruct (is_none v); try destruct (resume func f v);
            try destruct (is_stop_iteration e); try destruct kd; cbn; try exact I; try exact H).
Qed.

Lemma wrap_generator_yields_agree (func : resumable) args inputs :
  forall g t ys,
    starts_as func args g ->
    (drive (generator_send func) g inputs t).2.2 = map Returned ys ->
    (drive (wrapped_generator_send func) (mirror args g) inputs t).2.2
    = map Returned ys.
Proof.
  induction inputs as [|v rest IH]; intros g t ys Hstart Hinner.
  - exact Hinner.
  - pose proof (wrapped_generator_step func args g v t Hstart) as [Hst Hout].
    pose proof (user_send_keeps_start Generator func args g v t Hstart) as Hstart1.
    cbn [drive] in *. unfold generator_send in *.
    destruct (send Generator (user_body func) g v t) as [t1 [g1 r1]] eqn:Ein.
    destruct (wrapped_generator_send func (mirror args g) v t) as [t2 [w2 r2]] eqn:Eout.
    cbn in Hst, Hout, Hstart1. subst w2.
    pose proof (user_drive_any_tracer Generator func rest g1 t1 t2) as Hdr.
    destruct (drive (send Generator (user_body func)) g1 rest t1) as [t3 [g3 rs]] eqn:Erest.
    destruct ys as [|y ys]; [discriminate|]. cbn in Hinner.
    injection Hinner as Hr1 Hrs. subst r1.
    assert (Hr2 : r2 = Returned y) by (destruct g; cbn in Hout; auto).
    specialize (IH g1 t2 ys Hstart1).
    rewrite <- Hdr in IH. cbn in IH. specialize (IH Hrs).
    destruct (drive (wrapped_generator_send func) (mirror args g1) rest t2) as [t4 [w4 rs4]].
    cbn in IH. cbn. now rewrite Hr2, IH.
Qed.

(** *** The coroutine wrapper against the coroutine it wraps *)

Lemma wrapped_coroutine_step (func : resumable) args co v t :
  starts_as func args co ->
  let inner := coroutine_send func co v t in
  let outer := wrapped_coroutine_send func (cmirror args co) v t in
  outer.2.1 = cmirror args inner.2.1 /\ outer.2.2 = inner.2.2.
Proof.
  intros Hstart.
  destruct co as [f|f|]; cbn in Hstart; [destruct v; try (now cbn) | |now cbn].
  all: cbv [wrapped_coroutine_send coroutine_send send run_body wrap_coroutine_body
            await_step user_body cmirror is_none].
  all: rewrite ?Hstart.
  all: match goal with
       | |- context [resume ?fn ?a ?b] => destruct (resume fn a b) as [y k|r|e]
       end; cbn; auto.
  all: destruct e; cbn; auto.
Qed.

(** Awaiting the wrapper coroutine gives, resumption for resumption, what
    awaiting the wrapped coroutine gives. *)
Lemma wrap_coroutine_same_outcomes (func : resumable) args inputs :
  forall co t,
    starts_as func args co ->
    (drive (wrapped_coroutine_send func) (cmirror args co) inputs t).2.2
    = (drive (coroutine_send func) co inputs t).2.2.
Proof.
  induction inputs as [|v rest IH]; intros co t Hstart; [reflexivity|].
  pose proof (wrapped_coroutine_step func args co v t Hstart) as [Hst Hout].
  pose proof (user_send_keeps_start Coroutine func args co v t Hstart) as Hstart1.
  cbn [drive]. unfold coroutine_send in *.
  destruct (send Coroutine (user_body func) co v t) as [t1 [co1 r1]].
  destruct (wrapped_coroutine_send func (cmirror args co) v t) as [t2 [w2 r2]].
  cbn in Hst, Hout, Hstart1. subst w2 r2.
  specialize (IH co1 t2 Hstart1).
  pose proof (user_drive_any_tracer Coroutine func rest co1 t1 t2) as Hdr.
  destruct (drive (send Coroutine (user_body func)) co1 rest t1) as [t3 [co3 rs]].
  destruct (drive (send Coroutine (user_body func)) co1 rest t2) as [t3' [co3' rs']].
  destruct (drive (wrapped_coroutine_send func) (cmirror args co1) rest t2) as [t4 [w4 rs4]].
  cbn in *. injection Hdr as <- <-. now rewrite IH.
Qed.

(** *** The bracket of the coroutine wrapper *)




(** A resumption that runs the inner generator is inside exactly one
    bracket. *)
Lemma wrap_generator_one_bracket (func : resumable) args g v t :
  starts_as func args g ->
  match g with Created _ => v = VNone | Suspended _ => True | Closed => False end ->
  (wrapped_generator_send func (mirror args g) v t).1 = __exit__ (__enter__ t).
Proof.
  intros Hstart Hruns.
  destruct g as [f|f|]; cbn in Hstart, Hruns; [subst v | | contradiction].
  all: cbv [wrapped_generator_send send run_body wrap_generator_body
            with_self yield_item user_body mirror is_none].
  all: rewrite ?Hstart.
  all: match goal with
       | |- context [resume ?fn ?a ?b] => destruct (resume fn a b) as [y k|r|e]
       end; cbn; auto.
  all: destruct e; cbn; auto.
Qed.

(** When the inner generator finishes, the caller of the wrapper gets a
    [RuntimeError] in place of the [StopIteration]. *)
Lemma wrap_generator_exhaustion (func : resumable) args g v t x :
  starts_as func args g ->
  g <> Closed ->
  (generator_send func g v t).2.2 = Raised (StopIteration x) ->
  (wrapped_generator_send func (mirror args g) v t).2.2
  = Raised (RuntimeError "generator raised StopIteration").
Proof.
  intros Hstart Hopen Hinner.
  destruct (wrapped_generator_step func args g v t Hstart) as [_ Hout].
  rewrite Hout. destruct g; try congruence; now rewrite Hinner.
Qed.

End WrapperFacts.

(** * The claims about the wrappers *)
Section WrapperClaims.
Import PyGen Tracer MyLineProfiler Examples Relating.

(** C3.  The claim: a wrapped classmethod invoked through a subclass
    receives that subclass as its first argument.  The wrapper passes
    [func.__class__], the type of the classmethod object itself, whatever
    class the wrapper is reached through: for [whoami], which returns the
    class it is given, the call through [Sub] returns the builtin
    [classmethod], where the unwrapped classmethod returns [Sub]. *)
Theorem wrap_classmethod_passes_descriptor_type :
  (forall (cm : classmethod_object) (sub : pyval) args t,
      (invoke_function_on_class sub (wrap_classmethod cm) args t).2
      = cm_func cm (with_first (cm_class cm) args))
  /\ (invoke_function_on_class (VClass "Sub") (wrap_classmethod whoami_method)
        no_args fresh).2 = Returned (VClass "classmethod")
  /\ invoke_classmethod (VClass "Sub") whoami_method no_args = Returned (VClass "Sub").
Proof.
  split; [|split; reflexivity].
  intros cm sub args t. unfold invoke_function_on_class.
  now rewrite wrap_classmethod_run.
Qed.

(** C4.  The claim: the wrapped generator yields what the unwrapped one
    yields and passes on every exception of the inner generator unchanged,
    normal exhaustion included.  For [one_shot] the yielded value agrees,
    but at exhaustion the wrapper raises [RuntimeError] where the unwrapped
    generator raises [StopIteration]; for [nothing] this happens on the
    very first resumption. *)
Theorem wrap_generator_exhaustion_is_runtime_error :
  (drive (wrapped_generator_send one_shot) (call_generator_wrapper one_shot no_args)
     [VNone; VNone; VNone] fresh).2.2
  = [Returned (VInt 1);
     Raised (RuntimeError "generator raised StopIteration");
     Raised (StopIteration VNone)]
  /\ (drive (generator_send one_shot) (Created 0%nat) [VNone; VNone; VNone] fresh).2.2
     = [Returned (VInt 1); Raised (StopIteration VNone); Raised (StopIteration VNone)]
  /\ (drive (wrapped_generator_send nothing) (call_generator_wrapper nothing no_args)
        [VNone] fresh).2.2
     = [Raised (RuntimeError "generator raised StopIteration")]
  /\ (drive (generator_send nothing) (Created ()) [VNone] fresh).2.2
     = [Raised (StopIteration VNone)].
Proof. repeat split; reflexivity. Qed.

(** C5.  The claim: for each of the four shapes the wrapper made by
    [__call__] gives the result, or raises the exception, of the unwrapped
    callable.  For the classmethod [whoami] the wrapper returns the builtin
    [classmethod] where the unwrapped call through [Sub] returns [Sub], and
    for the generator [one_shot] the second resumption raises
    [RuntimeError] where the unwrapped generator raises [StopIteration]. *)
Theorem call_wrapper_changes_results :
  (__call__ (ClassMethod "whoami" whoami_method) fresh).2
  = WFunction (wrap_classmethod whoami_method)
  /\ (wrap_classmethod whoami_method no_args fresh).2 = Returned (VClass "classmethod")
  /\ invoke_classmethod (VClass "Sub") whoami_method no_args = Returned (VClass "Sub")
  /\ (__call__ (GeneratorFunction "one_shot" one_shot) fresh).2 = WGenerator one_shot
  /\ (drive (wrapped_generator_send one_shot) (call_generator_wrapper one_shot no_args)
        [VNone; VNone] fresh).2.2
     = [Returned (VInt 1); Raised (RuntimeError "generator raised StopIteration")]
  /\ (drive (generator_send one_shot) (Created 0%nat) [VNone; VNone] fresh).2.2
     = [Returned (VInt 1); Raised (StopIteration VNone)].
Proof. repeat split; reflexivity. Qed.


End WrapperClaims.

(** * Properties of the report renderer *)
Section RenderFacts.
Import PyFloat PyFormat Render Report MyLineProfiler Examples Relating.

Lemma pure_ret {St A} (a : A) : pure (ret (St := St) a).
Proof. now intros s. Qed.

Lemma pure_lift {St A} (o : outcome A) : pure (lift (St := St) o).
Proof. now intros s. Qed.

Lemma pure_bind {St A B} (c : M St A) (k : A -> M St B) :
  pure c -> (forall a, pure (k a)) -> pure (bind c k).
Proof.
  intros Hc Hk s. unfold bind. specialize (Hc s).
  destruct (c s) as [s' [a|e]]; cbn in Hc; subst s'; [apply Hk | reflexivity].
Qed.

Lemma pure_percent_cell {St} timings time : pure (percent_cell (St := St) timings time).
Proof.
  unfold percent_cell. destruct (total timings =? 0); [apply pure_ret|].
  apply pure_bind; [apply pure_lift | intros; apply pure_lift].
Qed.

Lemma pure_line_row {St} scalar timings ls : pure (line_row (St := St) scalar timings ls).
Proof.
  destruct ls as [[lineno nhits] time]. unfold line_row.
  apply pure_bind; [apply pure_percent_cell | intros].
  repeat (apply pure_bind; [apply pure_lift | intros]).
  apply pure_ret.
Qed.

Lemma pure_fill_rows {St} scalar timings todo :
  forall d, pure (fill_rows (St := St) scalar timings todo d).
Proof.
  induction todo as [|ls rest IH]; intros d; cbn [fill_rows]; [apply pure_ret|].
  apply pure_bind; [apply pure_line_row | intros; apply IH].
Qed.

(** The header of the table cannot be formatted: the specification [-s]
    puts a sign flag on a string. *)
Lemma table_header_raises {St} (s : St) :
  table_header s = (s, Raised (ValueError "Sign not allowed in string format specifier")).
Proof. reflexivity. Qed.

(** The row of a line that was never hit cannot be computed. *)
Lemma line_row_zero_hits {St} scalar timings lineno time (s : St) :
  exists e, line_row scalar timings (lineno, 0, time) s = (s, Raised e).
Proof.
  unfold line_row.
  pose proof (pure_percent_cell (St := St) timings time s) as Hp.
  unfold bind at 1. destruct (percent_cell timings time s) as [s' [pc|e]];
    cbn in Hp; subst s'; [|eauto].
  unfold bind, lift, int_mul, div_int.
  destruct (of_int time) as [ft|e]; [|eauto].
  destruct (format_float "5.1f" (mul ft scalar)); eauto.
Qed.

Lemma format_total_returns (x : float) :
  format_float "6.3f" x
  = Returned (rjust 6 (sign_prefix None (sign_bit x) +:+ fixed_text 3 x)).
Proof. reflexivity. Qed.

(** A unit that is not zero has a scale, whatever [output_unit] is. *)
Lemma scale_factor_returns unit output_unit :
  is_zero unit = false -> exists scalar, scale_factor unit output_unit = Returned scalar.
Proof.
  intros Hu. unfold scale_factor, div, truthy.
  destruct output_unit as [ou|].
  - destruct (is_zero ou) eqn:Hou; cbn; rewrite ?Hu, ?Hou; eauto.
  - rewrite Hu. eauto.
Qed.

Lemma show_func_missing src filename start_lineno func_name timings unit
    output_unit stream stripzeros log :
  path_exists src filename = false ->
  show_func src filename start_lineno func_name timings unit output_unit
    stream stripzeros log
  = (log ++ [(or_stdout stream, "Could not find file " +:+ filename +:+ nl)],
     Returned ()).
Proof. intros H. unfold show_func. now rewrite H. Qed.

Lemma show_func_stripped src filename start_lineno func_name timings unit
    output_unit stream log :
  path_exists src filename = true ->
  total timings = 0 ->
  show_func src filename start_lineno func_name timings unit output_unit
    stream true log
  = (log, Returned ()).
Proof. intros H H0. unfold show_func. now rewrite H, H0. Qed.

(** Past its two early returns [show_func] always raises: before it has
    written anything, or after the three lines that open the block. *)
Lemma show_func_block_raises src filename start_lineno func_name timings unit
    output_unit stream stripzeros log :
  path_exists src filename = true ->
  stripzeros && (total timings =? 0) = false ->
  exists e,
    show_func src filename start_lineno func_name timings unit output_unit
      stream stripzeros log = (log, Raised e)
    \/ exists total_text,
        show_func src filename start_lineno func_name timings unit output_unit
          stream stripzeros log
        = (log ++ block_heading (or_stdout stream) filename start_lineno
                    func_name total_text,
           Raised e).
Proof.
  intros Hex Hstrip. unfold show_func. rewrite Hex, Hstrip. cbn [negb].
  cbv [bind lift write].
  destruct (scale_factor unit output_unit) as [scalar|e]; [|eauto].
  destruct (int_mul (total timings) scalar) as [scaled_total|e]; [|eauto].
  rewrite format_total_returns.
  destruct (getblock src _) as [sublines|e];
    [|eexists; right; eexists; unfold block_heading;
      rewrite <- !app_assoc; reflexivity].
  match goal with
  | |- context [@fill_rows ?St ?a ?b ?c ?d ?s] =>
      pose proof (@pure_fill_rows St a b c d s) as Hp;
      destruct (@fill_rows St a b c d s) as [s' [rows|e]]; cbn in Hp; subst s'
  end.
  - rewrite table_header_raises.
    eexists. right. eexists. unfold block_heading.
    rewrite <- !app_assoc. reflexivity.
  - eexists. right. eexists. unfold block_heading.
    rewrite <- !app_assoc. reflexivity.
Qed.

(** [show_func] is an attribute of the class and not a name of the module. *)
Lemma show_func_is_bound_in_the_class_only src :
  class_namespace src !! "show_func" = Some (ReportFunction (show_func src))
  /\ module_globals !! "show_func" = None
  /\ builtins !! "show_func" = None.
Proof. repeat split; reflexivity. Qed.

(** With a non-empty mapping [show_text] writes its first line and then
    fails to find [show_func] among the module's names. *)
Lemma module_globals_lack_show_func {St} (s : St) :
  load_global module_globals "show_func" s = (s, Raised (NameError "show_func")).
Proof. reflexivity. Qed.

Lemma sorted_items_nonempty (stats : gmap key (list linestat)) :
  stats <> ∅ -> sorted_items stats <> [].
Proof.
  intros Hne Hnil. apply Hne. apply map_to_list_empty_iff.
  apply Permutation_nil_r. rewrite <- Hnil. unfold sorted_items.
  symmetry. apply merge_sort_Permutation.
Qed.

Lemma show_text_raises_on_targets stats unit output_unit stream stripzeros log :
  stats <> ∅ ->
  show_text module_globals stats unit output_unit stream stripzeros log
  = (log ++ [(default Stdout stream,
              timer_unit_line (default unit output_unit))],
     Raised (NameError "show_func")).
Proof.
  intros Hne. apply sorted_items_nonempty in Hne.
  unfold show_text. destruct (sorted_items stats) as [|[[[fn lineno] name] ts] rest];
    [contradiction|].
  unfold bind at 1.
  destruct output_unit as [ou|]; cbn [default]; unfold write at 1;
    cbn [for_each]; unfold bind at 1; unfold bind at 1;
    rewrite module_globals_lack_show_func; reflexivity.
Qed.

End RenderFacts.

(** * The claims about the report *)
Section ReportClaims.
Import PyFloat PyFormat Render Report MyLineProfiler Examples Relating.

(** C1.  The claim: called on a non-empty statistics mapping whose source
    files exist, the report call writes the unit line and one block per
    target and does not raise.  On the mapping [one_target], [show_text]
    (and [print_stats], which calls it) writes the unit line and then
    raises [NameError]: the name [show_func] is not bound in the module. *)
Theorem show_text_raises_name_error :
  show_text module_globals one_target microsecond None None false []
  = ([(Stdout, "Timer unit: 1e-06 s" +:+ nl +:+ nl)], Raised (NameError "show_func"))
  /\ print_stats module_globals
       {| stats_timings := one_target; stats_unit := microsecond |}
       (Some (Stream 0)) None false []
     = ([(Stream 0, "Timer unit: 1e-06 s" +:+ nl +:+ nl)], Raised (NameError "show_func")).
Proof. split; vm_compute; reflexivity. Qed.

(** C2.  The claim: a line statistic with zero hits gives a blank Per Hit
    cell and no division error.  The row of such a line is never computed,
    whatever the scale and the other statistics are; on the statistics
    [(1, 0, 0)], [(2, 1, 5)] [show_func] writes the three lines that open
    the block and raises [ZeroDivisionError]. *)
Theorem zero_hits_raise_division_error :
  (forall scalar timings lineno time (log : written),
      exists e, line_row scalar timings (lineno, 0, time) log = (log, Raised e))
  /\ show_func one_file "/a.py" 1 "f" [(1, 0, 0); (2, 1, 5)] microsecond None None false []
     = ([(Stdout, "Total time in f:  5.000 s" +:+ nl);
         (Stdout, "File: /a.py" +:+ nl);
         (Stdout, "Function: f at line 1" +:+ nl)],
        Raised (ZeroDivisionError "float division by zero")).
Proof.
  split; [intros; apply line_row_zero_hits | vm_compute; reflexivity].
Qed.



(** C8.  The claim: when the source file of one target is gone, the
    report has one diagnostic line for it and a full block for every other
    target.  The diagnostic line itself is written as claimed (see
    [show_func_missing]), but no other block is ever full: [show_text]
    raises [NameError] before the first target, and [show_func] called on
    the target whose file is there raises [ValueError] when it formats the
    header of the table, so that with [show_func] bound in the namespace the
    report stops at [/a.py] and never reaches [/gone.py]. *)
Theorem missing_file_report_is_cut_short :
  show_text module_globals two_targets microsecond None None false []
  = ([(Stdout, "Timer unit: 1e-06 s" +:+ nl +:+ nl)], Raised (NameError "show_func"))
  /\ show_func one_file "/gone.py" 1 "g" [(1, 1, 7)] microsecond None None false []
     = ([(Stdout, "Could not find file /gone.py" +:+ nl)], Returned ())
  /\ show_func one_file "/a.py" 1 "f" [(1, 1, 5); (2, 1, 10)] microsecond None None false []
     = ([(Stdout, "Total time in f: 15.000 s" +:+ nl);
         (Stdout, "File: /a.py" +:+ nl);
         (Stdout, "Function: f at line 1" +:+ nl)],
        Raised (ValueError "Sign not allowed in string format specifier"))
  /\ show_text (<["show_func" := ReportFunction (show_func one_file)]> module_globals)
       two_targets microsecond None None false []
     = ([(Stdout, "Timer unit: 1e-06 s" +:+ nl +:+ nl);
         (Stdout, "Total time in f: 15.000 s" +:+ nl);
         (Stdout, "File: /a.py" +:+ nl);
         (Stdout, "Function: f at line 1" +:+ nl)],
        Raised (ValueError "Sign not allowed in string format specifier")).
Proof. repeat split; vm_compute; reflexivity. Qed.

(** C10.  When the source file cannot be found, [show_func] writes the
    diagnostic line and returns, whatever [stripzeros] and the total time
    are: the check of the file comes before the check of the total. *)
Theorem missing_file_checked_before_stripzeros src filename start_lineno func_name
    timings unit output_unit stream stripzeros log :
  path_exists src filename = false ->
  show_func src filename start_lineno func_name timings unit output_unit
    stream stripzeros log
  = (log ++ [(or_stdout stream, "Could not find file " +:+ filename +:+ nl)],
     Returned ()).
Proof. apply show_func_missing. Qed.

Lemma missing_file_checked_before_stripzeros_witness :
  path_exists one_file "/gone.py" = false
  /\ total [(1, 0, 0)] = 0
  /\ show_func one_file "/gone.py" 1 "g" [(1, 0, 0)] microsecond None None true []
     = ([] ++ [(Stdout, "Could not find file " +:+ "/gone.py" +:+ nl)], Returned ()).
Proof.
  split; [reflexivity | split; [reflexivity|]].
  apply (missing_file_checked_before_stripzeros one_file "/gone.py" 1 "g"
           [(1, 0, 0)] microsecond None None true []).
  reflexivity.
Defined.

End ReportClaims.

(** * The scale of the displayed times *)
(** * Exact float arithmetic on integers *)
Section FloatFacts.
Import PyFloat PyFormat Render Relating.






















End FloatFacts.

Section ScaleClaims.
Import PyFloat PyFormat Render Report MyLineProfiler Examples Relating.

(** What [line_row] returns when it returns. *)
Lemma line_row_cells {St} scalar timings lineno nhits time (s : St) r :
  (line_row scalar timings (lineno, nhits, time) s).2 = Returned r ->
  exists float_time per_hit time_text per_hit_text percent,
    of_int time = Returned float_time
    /\ format_float "5.1f" (mul float_time scalar) = Returned time_text
    /\ div_int (mul float_time scalar) nhits = Returned per_hit
    /\ format_float "5.1f" per_hit = Returned per_hit_text
    /\ (percent_cell timings time s).2 = Returned percent
    /\ r = (CInt nhits, CStr time_text, CStr per_hit_text, CStr percent).
Proof.
  unfold line_row.
  pose proof (pure_percent_cell (St := St) timings time s) as Hp.
  unfold bind at 1. destruct (percent_cell timings time s) as [s' [pc|e]];
    cbn in Hp; subst s'; [|discriminate].
  cbv [bind lift ret int_mul].
  destruct (of_int time) as [ft|e]; [|discriminate].
  destruct (format_float "5.1f" (mul ft scalar)) as [tx|e] eqn:Etx; [|discriminate].
  destruct (div_int (mul ft scalar) nhits) as [ph|e] eqn:Eph; [|discriminate].
  destruct (format_float "5.1f" ph) as [tp|e] eqn:Etp; [|discriminate].
  cbn. intros [= <-]. now exists ft, ph, tx, tp, pc.
Qed.

Lemma fill_rows_entries {St} scalar timings todo :
  forall (d : gmap Z row) (s : St) rows l r,
    (fill_rows scalar timings todo d s).2 = Returned rows ->
    rows !! l = Some r ->
    d !! l = Some r
    \/ exists nhits time,
        In (l, nhits, time) todo
        /\ (line_row scalar timings (l, nhits, time) s).2 = Returned r.
Proof.
  induction todo as [|ls rest IH]; intros d s rows l r Hrows Hl.
  - cbn in Hrows. injection Hrows as <-. now left.
  - cbn [fill_rows] in Hrows. unfold bind in Hrows.
    pose proof (pure_line_row (St := St) scalar timings ls s) as Hp.
    destruct (line_row scalar timings ls s) as [s1 [r1|e1]] eqn:Erow; [|discriminate].
    cbn in Hp. subst s1.
    destruct (IH _ _ _ _ _ Hrows Hl) as [Hd|(n & t & Hin & Hr)].
    + destruct ls as [[l' n] t]. cbn [fst snd] in Hd.
      destruct (decide (l' = l)) as [->|Hne].
      * rewrite lookup_insert_eq in Hd. injection Hd as <-.
        right. exists n, t. split; [now left|]. now rewrite Erow.
      * rewrite lookup_insert_ne in Hd by assumption. now left.
    + right. exists n, t. split; [now right | assumption].
Qed.











End ScaleClaims.


(** * Further properties of the wrappers *)
Section WrapperCoverage.
Import PyGen Tracer MyLineProfiler Examples Relating Stacked Relating2 Examples2.

(** X1.  As long as the wrapped generator yields, the wrapper made for the
    same call yields the same values, resumption for resumption, for every
    sequence of sent values. *)
Theorem wrapped_generator_yields_the_same_values (func : resumable) args f0 inputs t ys :
  start func args = Returned f0 ->
  (drive (generator_send func) (Created f0) inputs t).2.2 = map Returned ys ->
  (drive (wrapped_generator_send func) (call_generator_wrapper func args) inputs t).2.2
  = map Returned ys.
Proof.
  intros Hstart Hinner.
  apply (wrap_generator_yields_agree func args inputs (Created f0) t ys Hstart Hinner).
Qed.

Lemma wrapped_generator_yields_the_same_values_witness :
  start one_shot no_args = Returned 0%nat
  /\ (drive (generator_send one_shot) (Created 0%nat) [VNone] fresh).2.2
     = map Returned [VInt 1]
  /\ (drive (wrapped_generator_send one_shot) (call_generator_wrapper one_shot no_args)
        [VNone] fresh).2.2
     = map Returned [VInt 1].
Proof.
  split; [reflexivity | split; [reflexivity|]].
  apply (wrapped_generator_yields_the_same_values one_shot no_args 0%nat [VNone] fresh
           [VInt 1]); reflexivity.
Defined.

(** X2.  When a resumption of the wrapped generator ends in [StopIteration]
    (the generator returns), the same resumption of the wrapper ends in
    [RuntimeError]: the wrapper is then finished and its bracket is closed. *)
Theorem wrapped_generator_exhaustion_raises_runtime_error (func : resumable)
    args g v t x :
  starts_as func args g ->
  g <> Closed ->
  (generator_send func g v t).2.2 = Raised (StopIteration x) ->
  wrapped_generator_send func (mirror args g) v t
  = (__exit__ (__enter__ t),
     (Closed, Raised (RuntimeError "generator raised StopIteration"))).
Proof.
  intros Hstart Hopen Hinner.
  destruct g as [f|f|]; cbn in Hstart; [destruct v | |congruence].
  all: cbv [wrapped_generator_send generator_send send run_body wrap_generator_body
            with_self yield_item user_body mirror is_none] in *.
  all: rewrite ?Hstart.
  all: try discriminate.
  all: match goal with
       | H : context [resume ?fn ?a ?b] |- _ => destruct (resume fn a b) as [y k|r|e]
       end; cbn in *; try discriminate; try reflexivity.
  all: destruct e; cbn in *; try discriminate; reflexivity.
Qed.

Lemma wrapped_generator_exhaustion_raises_runtime_error_witness :
  starts_as one_shot no_args (Suspended 1%nat)
  /\ (generator_send one_shot (Suspended 1%nat) VNone fresh).2.2
     = Raised (StopIteration VNone)
  /\ wrapped_generator_send one_shot (mirror no_args (Suspended 1%nat)) VNone fresh
     = (__exit__ (__enter__ fresh),
        (Closed, Raised (RuntimeError "generator raised StopIteration"))).
Proof.
  split; [exact I | split; [reflexivity|]].
  apply (wrapped_generator_exhaustion_raises_runtime_error one_shot no_args
           (Suspended 1%nat) VNone fresh VNone);
    [exact I | discriminate | reflexivity].
Defined.

(** X3.  A resumption of the wrapper that resumes the wrapped generator is
    inside exactly one bracket; a resumption that does not (the wrapper is
    finished, or a value other than [None] is sent to a wrapper that was not
    started) leaves the tracer as it is. *)
Theorem wrapped_generator_brackets_each_resumption (func : resumable) args g v t :
  starts_as func args g ->
  (wrapped_generator_send func (mirror args g) v t).1
  = if resumes_inner g v then __exit__ (__enter__ t) else t.
Proof.
  intros Hstart.
  destruct g as [f|f|]; cbn in Hstart; [destruct v | |]; try reflexivity.
  all: cbv [wrapped_generator_send send run_body wrap_generator_body
            with_self yield_item user_body mirror is_none resumes_inner].
  all: rewrite ?Hstart.
  all: match goal with
       | |- context [resume ?fn ?a ?b] => destruct (resume fn a b) as [y k|r|e]
       end; cbn; auto.
  all: destruct e; cbn; auto.
Qed.

Lemma wrapped_generator_brackets_each_resumption_witness :
  starts_as one_shot no_args (Created 0%nat)
  /\ (wrapped_generator_send one_shot (mirror no_args (Created 0%nat)) VNone fresh).1
     = (if resumes_inner (Created 0%nat : gen_state (frame one_shot)) VNone
        then __exit__ (__enter__ fresh) else fresh).
Proof.
  split; [reflexivity|].
  apply (wrapped_generator_brackets_each_resumption one_shot no_args (Created 0%nat)
           VNone fresh).
  reflexivity.
Defined.

(** X5.  Awaiting the wrapper of a coroutine function gives, resumption for
    resumption and for every sequence of values sent by the event loop, what
    awaiting the wrapped coroutine gives: the same suspensions, the same
    result or the same exception. *)
Theorem wrapped_coroutine_is_transparent (func : resumable) args f0 inputs t :
  start func args = Returned f0 ->
  (drive (wrapped_coroutine_send func) (call_coroutine_wrapper func args) inputs t).2.2
  = (drive (coroutine_send func) (Created f0) inputs t).2.2.
Proof.
  intros Hstart.
  apply (wrap_coroutine_same_outcomes func args inputs (Created f0) t Hstart).
Qed.

Lemma wrapped_coroutine_is_transparent_witness :
  start answer no_args = Returned 0%nat
  /\ (drive (wrapped_coroutine_send answer) (call_coroutine_wrapper answer no_args)
        [VNone; VNone] fresh).2.2
     = (drive (coroutine_send answer) (Created 0%nat) [VNone; VNone] fresh).2.2.
Proof.
  split; [reflexivity|].
  apply (wrapped_coroutine_is_transparent answer no_args 0%nat [VNone; VNone] fresh).
  reflexivity.
Defined.

(** X4.  Calling the wrapper of a generator function runs nothing of the
    wrapped function: when the arguments do not fit it, the error comes at the
    first resumption of the wrapper, outside any bracket, and the wrapper is
    finished. *)
Theorem wrap_generator_defers_the_call (func : resumable) args e t :
  start func args = Raised e ->
  is_stop_iteration e = false ->
  wrapped_generator_send func (call_generator_wrapper func args) VNone t
  = (t, (Closed, Raised e)).
Proof.
  intros Hstart Hnot.
  cbv [wrapped_generator_send call_generator_wrapper send is_none run_body
       wrap_generator_body].
  now rewrite Hstart, Hnot.
Qed.

Lemma wrap_generator_defers_the_call_witness :
  start picky no_args
  = Raised (TypeError "picky() missing 1 required positional argument: 'x'")
  /\ wrapped_generator_send picky (call_generator_wrapper picky no_args) VNone fresh
     = (fresh,
        (Closed, Raised (TypeError "picky() missing 1 required positional argument: 'x'"))).
Proof.
  split; [reflexivity|].
  apply (wrap_generator_defers_the_call picky no_args); reflexivity.
Defined.

(** X6.  The decorator applied [n] times to a plain function still gives
    what the function gives; its brackets nest, [n] entered and then [n]
    left, and the activation count is back where it was. *)
Theorem stacked_decorators_nest (n : nat) (func : pyfunction) args t :
  let r := decorate n func args t in
  r.2 = func args
  /\ enable_count r.1 = enable_count t
  /\ functions r.1 = functions t
  /\ trace r.1 = trace t ++ repeat Enter n ++ repeat Exit n.
Proof.
  revert t. induction n as [|k IH]; intros t; cbn zeta.
  - cbn. now rewrite app_nil_r.
  - cbn [decorate]. unfold wrap_function_around, bind, with_self.
    specialize (IH (__enter__ t)). cbn zeta in IH.
    destruct (decorate k func args (__enter__ t)) as [t1 o].
    cbn [fst snd] in IH. destruct IH as (Ho & Hc & Hf & Htr). subst o.
    assert (Hgoal : enable_count (__exit__ t1) = enable_count t
                    /\ functions (__exit__ t1) = functions t
                    /\ trace (__exit__ t1)
                       = trace t ++ repeat Enter (S k) ++ repeat Exit (S k)).
    { cbn. rewrite Hc, Hf, Htr. cbn. repeat split.
      rewrite <- !app_assoc. cbn. do 2 f_equal.
      rewrite (repeat_cons k Exit). reflexivity. }
    destruct (func args); cbn; auto.
Qed.

(** One bracket of [wrap_function] is the decorator applied once. *)
Lemma decorate_once (func : pyfunction) args t :
  decorate 1 func args t = wrap_function func args t.
Proof. reflexivity. Qed.

End WrapperCoverage.


(** * Further properties of the report renderer *)
Section RenderCoverage.
Import PyFloat PyFormat Render Report MyLineProfiler Examples Relating Relating2 Examples2.

Lemma steady_ret {St A} (a : A) : steady (ret (St := St) a).
Proof. now exists (Returned a). Qed.

Lemma steady_lift {St A} (o : outcome A) : steady (lift (St := St) o).
Proof. now exists o. Qed.

Lemma steady_bind {St A B} (c : M St A) (k : A -> M St B) :
  steady c -> (forall a, steady (k a)) -> steady (bind c k).
Proof.
  intros [o Ho] Hk. destruct o as [a|e].
  - destruct (Hk a) as [o' Ho']. exists o'. intros s. unfold bind. now rewrite Ho.
  - exists (Raised e). intros s. unfold bind. now rewrite Ho.
Qed.

Lemma steady_percent_cell {St} timings time : steady (percent_cell (St := St) timings time).
Proof.
  unfold percent_cell. destruct (total timings =? 0); [apply steady_ret|].
  apply steady_bind; [apply steady_lift | intros; apply steady_lift].
Qed.

Lemma steady_line_row {St} scalar timings ls : steady (line_row (St := St) scalar timings ls).
Proof.
  destruct ls as [[lineno nhits] time]. unfold line_row.
  apply steady_bind; [apply steady_percent_cell | intros].
  repeat (apply steady_bind; [apply steady_lift | intros]).
  apply steady_ret.
Qed.

Lemma steady_fill_rows {St} scalar timings todo :
  forall d, steady (fill_rows (St := St) scalar timings todo d).
Proof.
  induction todo as [|ls rest IH]; intros d; cbn [fill_rows]; [apply steady_ret|].
  apply steady_bind; [apply steady_line_row | intros; apply IH].
Qed.

(** When [show_func] returns instead of raising. *)
Lemma show_func_returns_when src filename start_lineno func_name timings unit
    output_unit stream stripzeros log :
  (show_func src filename start_lineno func_name timings unit output_unit
     stream stripzeros log).2 = Returned ()
  <-> path_exists src filename = false \/ (stripzeros = true /\ total timings = 0).
Proof.
  split.
  - intros Hret. destruct (path_exists src filename) eqn:Hex; [right | now left].
    destruct (stripzeros && (total timings =? 0)) eqn:Hstrip.
    + apply andb_prop in Hstrip as [-> H0]. now apply Z.eqb_eq in H0.
    + destruct (show_func_block_raises src filename start_lineno func_name timings
                  unit output_unit stream stripzeros log Hex Hstrip) as [e [H|[tt H]]];
        rewrite H in Hret; discriminate.
  - intros [Hmiss | [-> H0]].
    + now rewrite show_func_missing.
    + destruct (path_exists src filename) eqn:Hex.
      * now rewrite show_func_stripped.
      * now rewrite show_func_missing.
Qed.

(** X7.  [show_func] returns without raising exactly when the file of the
    target is missing or [stripzeros] is set and the total is zero: a block
    that it starts, it never finishes. *)
Theorem show_func_returns_only_without_a_block src filename start_lineno func_name
    timings unit output_unit stream stripzeros log :
  (show_func src filename start_lineno func_name timings unit output_unit
     stream stripzeros log).2 = Returned ()
  <-> path_exists src filename = false \/ (stripzeros = true /\ total timings = 0).
Proof. apply show_func_returns_when. Qed.


(** X9.  When the native unit is not zero and the total fits a float,
    [show_func] on a block that it does not leave out writes the three lines
    that open the block, with the total multiplied by the scale and shown
    with three decimals, before it raises. *)
Theorem show_func_writes_the_heading src filename start_lineno func_name timings unit
    output_unit stream stripzeros log float_total :
  path_exists src filename = true ->
  stripzeros && (total timings =? 0) = false ->
  is_zero unit = false ->
  of_int (total timings) = Returned float_total ->
  exists scalar total_text e,
    scale_factor unit output_unit = Returned scalar
    /\ format_float "6.3f" (mul float_total scalar) = Returned total_text
    /\ show_func src filename start_lineno func_name timings unit output_unit
         stream stripzeros log
       = (log ++ block_heading (or_stdout stream) filename start_lineno
                   func_name total_text,
          Raised e).
Proof.
  intros Hex Hstrip Hu Hft.
  destruct (scale_factor_returns unit output_unit Hu) as [scalar Hs].
  exists scalar. unfold show_func. rewrite Hex, Hstrip, Hs. cbn [negb].
  cbv [bind lift write int_mul]. rewrite Hft, format_total_returns.
  destruct (getblock src _) as [sublines|e];
    [| eexists; eexists; (split; [reflexivity|]); (split; [reflexivity|]);
       unfold block_heading; rewrite <- !app_assoc; reflexivity].
  destruct (steady_fill_rows (St := written) scalar timings timings ∅) as [o Ho].
  rewrite Ho. destruct o as [rows|e]; rewrite ?table_header_raises;
    eexists; eexists; (split; [reflexivity|]); (split; [reflexivity|]);
    unfold block_heading; rewrite <- !app_assoc; reflexivity.
Qed.

Lemma show_func_writes_the_heading_witness :
  path_exists one_file "/a.py" = true
  /\ of_int (total [(1, 1, 5); (2, 1, 10)]) = Returned (S754_finite false 8444249301319680 (-49))
  /\ exists scalar total_text e,
      scale_factor microsecond None = Returned scalar
      /\ format_float "6.3f" (mul (S754_finite false 8444249301319680 (-49)) scalar) = Returned total_text
      /\ show_func one_file "/a.py" 1 "f" [(1, 1, 5); (2, 1, 10)] microsecond None None
           false []
         = ([] ++ block_heading (or_stdout None) "/a.py" 1 "f" total_text, Raised e).
Proof.
  split; [reflexivity | split; [vm_compute; reflexivity|]].
  apply (show_func_writes_the_heading one_file "/a.py" 1 "f" [(1, 1, 5); (2, 1, 10)]
           microsecond None None false []); vm_compute; reflexivity.
Defined.

(** X10.  No line of the table can be formatted: whatever the cells and
    the text of the line are, [table_line] raises [ValueError], because the
    last field, [{line.rstrip():-s}], puts a sign flag on a string. *)
Theorem table_line_always_raises {St} (d : gmap Z row) lineno line (s : St) :
  table_line d lineno line s
  = (s, Raised (ValueError "Sign not allowed in string format specifier")).
Proof.
  unfold table_line.
  destruct (default empty (d !! lineno)) as [[[nhits time] per_hit] percent].
  destruct nhits, time, per_hit, percent; reflexivity.
Qed.

(** X11.  The percentage of a line never divides by zero: it is the empty
    text when the total is zero, and otherwise a text, or [OverflowError] when
    the quotient does not fit a float. *)
Theorem percent_cell_never_divides_by_zero {St} timings time (s : St) :
  (total timings = 0 -> percent_cell timings time s = (s, Returned ""))
  /\ ((exists text, percent_cell timings time s = (s, Returned text))
      \/ (exists msg, percent_cell timings time s = (s, Raised (OverflowError msg)))).
Proof.
  unfold percent_cell. split.
  - intros ->. reflexivity.
  - destruct (total timings =? 0) eqn:H0; [left; eauto|].
    cbv [bind lift]. unfold int_true_div. rewrite H0.
    destruct (100 * time =? 0); [left; eauto|].
    match goal with
    | |- context [binary_normalize ?p ?e ?m ?x ?b] =>
        destruct (binary_normalize p e m x b)
    end; eauto.
Qed.

(** X12.  Computing the scale raises in one case only: the native unit is
    zero and [output_unit] is absent or zero, so that the unit is divided by
    itself.  A zero [output_unit] counts as absent. *)
Theorem scale_factor_fails_only_on_zero_unit unit output_unit :
  ((exists e, scale_factor unit output_unit = Raised e)
   <-> is_zero unit = true
       /\ match output_unit with Some ou => is_zero ou = true | None => True end)
  /\ (forall ou, is_zero ou = true ->
        scale_factor unit (Some ou) = scale_factor unit None).
Proof.
  split.
  - unfold scale_factor, div, truthy.
    destruct output_unit as [ou|].
    + destruct (is_zero ou) eqn:Hou; cbn; rewrite ?Hou.
      * destruct (is_zero unit); split; [intros _; auto | intros _; eauto
                                        | intros [e He]; discriminate | intros [[=] _]].
      * split; [intros [e He]; discriminate | intros [_ [=]]].
    + destruct (is_zero unit); split; [intros _; auto | intros _; eauto
                                      | intros [e He]; discriminate | intros [[=] _]].
  - intros ou Hou. unfold scale_factor, truthy. now rewrite Hou.
Qed.

End RenderCoverage.


(** * Further properties of the table and of the report *)
Section TableCoverage.
Import PyFloat PyFormat Render Report MyLineProfiler Examples Relating Relating2 Examples2.

Lemma fill_rows_keeps {St} scalar timings todo :
  forall (d : gmap Z row) (s : St) rows l,
    (fill_rows scalar timings todo d s).2 = Returned rows ->
    (forall n t, ~ In (l, n, t) todo) ->
    rows !! l = d !! l.
Proof.
  induction todo as [|ls rest IH]; intros d s rows l Hrows Hnot.
  - cbn in Hrows. now injection Hrows as <-.
  - cbn [fill_rows] in Hrows. unfold bind in Hrows.
    pose proof (pure_line_row (St := St) scalar timings ls s) as Hp.
    destruct (line_row scalar timings ls s) as [s1 [r1|e1]]; [|discriminate].
    cbn in Hp. subst s1.
    rewrite (IH _ _ _ l Hrows) by (intros n t Hin; apply (Hnot n t); now right).
    destruct ls as [[l' n] t]. cbn [fst snd].
    apply lookup_insert_ne. intros ->. apply (Hnot n t). now left.
Qed.

Lemma fill_rows_app {St} scalar timings front :
  forall back (d : gmap Z row) (s : St) rows,
    (fill_rows scalar timings (front ++ back) d s).2 = Returned rows ->
    exists mid,
      (fill_rows scalar timings front d s).2 = Returned mid
      /\ (fill_rows scalar timings back mid s).2 = Returned rows.
Proof.
  induction front as [|ls rest IH]; intros back d s rows Hrows.
  - exists d. now split.
  - cbn [app fill_rows] in *. unfold bind in *.
    pose proof (pure_line_row (St := St) scalar timings ls s) as Hp.
    destruct (line_row scalar timings ls s) as [s1 [r1|e1]]; [|discriminate].
    cbn in Hp. subst s1. now apply IH.
Qed.

Lemma fill_rows_covers {St} scalar timings todo :
  forall (d : gmap Z row) (s : St) rows l,
    (fill_rows scalar timings todo d s).2 = Returned rows ->
    is_Some (d !! l) \/ (exists n t, In (l, n, t) todo) ->
    is_Some (rows !! l).
Proof.
  induction todo as [|ls rest IH]; intros d s rows l Hrows Hl.
  - cbn in Hrows. injection Hrows as <-.
    destruct Hl as [Hd | (n & t & [])]. exact Hd.
  - cbn [fill_rows] in Hrows. unfold bind in Hrows.
    pose proof (pure_line_row (St := St) scalar timings ls s) as Hp.
    destruct (line_row scalar timings ls s) as [s1 [r1|e1]]; [|discriminate].
    cbn in Hp. subst s1.
    apply (IH _ _ _ l Hrows).
    destruct ls as [[l' n'] t']. cbn [fst snd].
    destruct (decide (l' = l)) as [->|Hne].
    + left. rewrite lookup_insert_eq. eauto.
    + destruct Hl as [Hd | (n & t & [Heq | Hin])].
      * left. now rewrite lookup_insert_ne.
      * congruence.
      * right. eauto.
Qed.

(** X13.  When several statistics name the same line, the cells kept for
    the line are those of the last of them. *)
Theorem fill_rows_last_statistic_wins {St} scalar front back l n t
    (s : St) (rows : gmap Z row) :
  (fill_rows scalar (front ++ (l, n, t) :: back) (front ++ (l, n, t) :: back) ∅ s).2
  = Returned rows ->
  (forall n' t', ~ In (l, n', t') back) ->
  exists r,
    (line_row scalar (front ++ (l, n, t) :: back) (l, n, t) s).2 = Returned r
    /\ rows !! l = Some r.
Proof.
  intros Hrows Hlast.
  apply fill_rows_app in Hrows as (mid & _ & Hrest).
  cbn [fill_rows] in Hrest. unfold bind in Hrest.
  pose proof (pure_line_row (St := St) scalar (front ++ (l, n, t) :: back) (l, n, t) s)
    as Hp.
  destruct (line_row scalar (front ++ (l, n, t) :: back) (l, n, t) s)
    as [s1 [r|e]]; [|discriminate].
  cbn in Hp. subst s1. exists r. split; [reflexivity|].
  rewrite (fill_rows_keeps _ _ _ _ _ _ l Hrest Hlast). cbn.
  apply lookup_insert_eq.
Qed.

Lemma fill_rows_last_statistic_wins_witness :
  (fill_rows scale_one ([(7, 1, 4)] ++ (7, 2, 6) :: [(8, 1, 10)])
     ([(7, 1, 4)] ++ (7, 2, 6) :: [(8, 1, 10)]) ∅ ()).2
  = Returned (<[8 := (CInt 1, CStr " 10.0", CStr " 10.0", CStr " 50.0")]>
                (<[7 := (CInt 2, CStr "  6.0", CStr "  3.0", CStr " 30.0")]> ∅))
  /\ exists r,
      (line_row scale_one ([(7, 1, 4)] ++ (7, 2, 6) :: [(8, 1, 10)]) (7, 2, 6) ()).2
      = Returned r
      /\ (<[8 := (CInt 1, CStr " 10.0", CStr " 10.0", CStr " 50.0")]>
            (<[7 := (CInt 2, CStr "  6.0", CStr "  3.0", CStr " 30.0")]> ∅) : gmap Z row)
           !! 7 = Some r.
Proof.
  assert (H : (fill_rows scale_one ([(7, 1, 4)] ++ (7, 2, 6) :: [(8, 1, 10)])
                 ([(7, 1, 4)] ++ (7, 2, 6) :: [(8, 1, 10)]) ∅ ()).2
              = Returned (<[8 := (CInt 1, CStr " 10.0", CStr " 10.0", CStr " 50.0")]>
                            (<[7 := (CInt 2, CStr "  6.0", CStr "  3.0", CStr " 30.0")]> ∅)))
    by (vm_compute; reflexivity).
  split; [exact H|].
  apply (fill_rows_last_statistic_wins scale_one [(7, 1, 4)] [(8, 1, 10)] 7 2 6 () _ H).
  intros n' t' [Heq | []]. discriminate.
Defined.

(** X14.  When the cells of a target can be computed, the lines that have
    cells are exactly the lines that have a statistic; every other line of
    the block is looked up to the four empty cells. *)
Theorem fill_rows_has_the_recorded_lines {St} scalar timings (s : St)
    (rows : gmap Z row) :
  (fill_rows scalar timings timings ∅ s).2 = Returned rows ->
  forall l,
    (is_Some (rows !! l) <-> exists n t, In (l, n, t) timings)
    /\ ((forall n t, ~ In (l, n, t) timings) -> default empty (rows !! l) = empty).
Proof.
  intros Hrows l. split; [split|].
  - intros [r Hr].
    destruct (fill_rows_entries scalar timings timings ∅ s rows l r Hrows Hr)
      as [Hempty | (n & t & Hin & _)].
    + rewrite lookup_empty in Hempty. discriminate.
    + eauto.
  - intros Hin. apply (fill_rows_covers scalar timings timings ∅ s rows l Hrows). now right.
  - intros Hnot. rewrite (fill_rows_keeps _ _ _ _ _ _ l Hrows Hnot).
    now rewrite lookup_empty.
Qed.

Lemma fill_rows_has_the_recorded_lines_witness :
  (fill_rows scale_one [(1, 3, 1)] [(1, 3, 1)] ∅ ()).2
  = Returned {[ 1 := (CInt 3, CStr "  1.0", CStr "  0.3", CStr " 100.0") ]}
  /\ (is_Some (({[ 1 := (CInt 3, CStr "  1.0", CStr "  0.3", CStr " 100.0") ]}
                  : gmap Z row) !! 2)
      <-> exists n t, In (2, n, t) [(1, 3, 1)]).
Proof.
  assert (H : (fill_rows scale_one [(1, 3, 1)] [(1, 3, 1)] ∅ ()).2
              = Returned {[ 1 := (CInt 3, CStr "  1.0", CStr "  0.3", CStr " 100.0") ]})
    by (vm_compute; reflexivity).
  split; [exact H|].
  exact (proj1 (fill_rows_has_the_recorded_lines scale_one [(1, 3, 1)] () _ H 2)).
Defined.

Lemma total_from (timings : list linestat) :
  forall a, fold_left (fun acc '(_, _, time) => acc + time) timings a = a + total timings.
Proof.
  unfold total. induction timings as [|[[l n] t] rest IH]; intros a.
  - cbn. lia.
  - cbn [fold_left]. rewrite (IH (a + t)), (IH (0 + t)). lia.
Qed.

Lemma total_cons l n t rest : total ((l, n, t) :: rest) = t + total rest.
Proof. unfold total at 1. cbn. apply total_from. Qed.

Lemma total_nonneg timings :
  Forall (fun ls : linestat => 0 <= ls.2) timings -> 0 <= total timings.
Proof.
  induction 1 as [|[[l n] t] rest Ht _ IH]; [reflexivity|].
  rewrite total_cons. cbn in Ht. lia.
Qed.

(** X15.  The total that [stripzeros] tests does not depend on the order of
    the statistics; and when no time is negative it is zero exactly when the
    time of every line is zero. *)
Theorem total_zero_means_all_zero (timings : list linestat) :
  (forall other, Permutation timings other -> total other = total timings)
  /\ (Forall (fun ls : linestat => 0 <= ls.2) timings ->
      (total timings = 0 <-> Forall (fun ls : linestat => ls.2 = 0) timings)).
Proof.
  split.
  - intros other Hperm.
    induction Hperm as [|[[l n] t] a b _ IH|[[l1 n1] t1] [[l2 n2] t2] a|a b c _ IH1 _ IH2].
    + reflexivity.
    + rewrite !total_cons. lia.
    + rewrite !total_cons. lia.
    + lia.
  - intros Hpos. induction Hpos as [|[[l n] t] rest Ht Hrest IH].
    + split; [constructor | reflexivity].
    + rewrite total_cons. cbn in Ht. pose proof (total_nonneg rest Hrest) as H0.
      split.
      * intros Hsum. constructor; [cbn; lia | apply IH; lia].
      * intros Hall. inversion Hall as [|? ? H1 H2]; subst. cbn in H1.
        apply IH in H2. lia.
Qed.

Lemma total_zero_means_all_zero_witness :
  Permutation [(1, 1, 4); (2, 3, 0)] [(2, 3, 0); (1, 1, 4)]
  /\ total [(2, 3, 0); (1, 1, 4)] = total [(1, 1, 4); (2, 3, 0)]
  /\ Forall (fun ls : linestat => 0 <= ls.2) [(1, 1, 0); (2, 3, 0)]
  /\ (total [(1, 1, 0); (2, 3, 0)] = 0
      <-> Forall (fun ls : linestat => ls.2 = 0) [(1, 1, 0); (2, 3, 0)]).
Proof.
  assert (P : Permutation [(1, 1, 4); (2, 3, 0)] [(2, 3, 0); (1, 1, 4)])
    by apply perm_swap.
  assert (H : Forall (fun ls : linestat => 0 <= ls.2) [(1, 1, 0); (2, 3, 0)])
    by (repeat constructor; cbn; lia).
  split; [exact P|].
  split; [exact (proj1 (total_zero_means_all_zero [(1, 1, 4); (2, 3, 0)]) _ P)|].
  split; [exact H|].
  exact (proj2 (total_zero_means_all_zero [(1, 1, 0); (2, 3, 0)]) H).
Defined.

End TableCoverage.


(** * Further properties of [show_text] *)
Section ReportCoverage.
Import PyFloat PyFormat Render Report MyLineProfiler Examples Relating Relating2 Examples2.

(** X16.  On an empty statistics mapping [show_text] writes the line of the
    timer unit, with [output_unit] when one is given and the native unit
    otherwise, and returns; no name is looked up. *)
Theorem show_text_without_targets (globals : namespace) unit output_unit stream
    stripzeros log :
  show_text globals ∅ unit output_unit stream stripzeros log
  = (log ++ [(default Stdout stream, timer_unit_line (default unit output_unit))],
     Returned ()).
Proof.
  unfold show_text, sorted_items. rewrite map_to_list_empty.
  unfold bind. destruct output_unit; reflexivity.
Qed.

(** X17.  [print_stats] of a profiler that has recorded at least one target
    writes the line of the timer unit and then raises [NameError]: the report
    looks up [show_func] among the module's globals, where the module does
    not bind it. *)
Theorem print_stats_raises_name_error (stats : line_stats) stream output_unit
    stripzeros log :
  stats_timings stats <> ∅ ->
  print_stats module_globals stats stream output_unit stripzeros log
  = (log ++ [(default Stdout stream,
              timer_unit_line (default (stats_unit stats) output_unit))],
     Raised (NameError "show_func")).
Proof.
  intros Hne. unfold print_stats.
  apply (show_text_raises_on_targets (stats_timings stats) (stats_unit stats)
           output_unit stream stripzeros log Hne).
Qed.

Lemma print_stats_raises_name_error_witness :
  stats_timings {| stats_timings := one_target; stats_unit := microsecond |} <> ∅
  /\ print_stats module_globals
       {| stats_timings := one_target; stats_unit := microsecond |} None None false []
     = ([] ++ [(default Stdout None, timer_unit_line (default microsecond None))],
        Raised (NameError "show_func")).
Proof.
  assert (H : stats_timings {| stats_timings := one_target; stats_unit := microsecond |}
              <> ∅) by apply map_non_empty_singleton.
  split; [exact H|].
  exact (print_stats_raises_name_error
           {| stats_timings := one_target; stats_unit := microsecond |}
           None None false [] H).
Defined.

Lemma for_each_returns {St A} (P : A -> Prop) (xs : list A) (body : A -> M St ()) :
  (forall x s, In x xs -> ((body x s).2 = Returned () <-> P x)) ->
  forall s, (for_each xs body s).2 = Returned () <-> Forall P xs.
Proof.
  induction xs as [|x rest IH]; intros Hbody s.
  - cbn. split; auto.
  - cbn [for_each]. unfold bind.
    pose proof (Hbody x s (or_introl eq_refl)) as Hx.
    destruct (body x s) as [s1 [[]|e]]; cbn in Hx.
    + rewrite IH by (intros y s' Hy; apply Hbody; now right).
      split; [intros Hrest; constructor; [now apply Hx | assumption]
             | intros Hall; now inversion Hall].
    + cbn. split; [discriminate|].
      intros Hall. inversion Hall as [|? ? Hpx _]; subst. apply Hx in Hpx. discriminate.
Qed.

Lemma sorted_items_lookup (stats : gmap key (list linestat)) k timings :
  In (k, timings) (sorted_items stats) <-> stats !! k = Some timings.
Proof.
  rewrite <- list_elem_of_In. unfold sorted_items.
  rewrite merge_sort_Permutation. apply elem_of_map_to_list.
Qed.

(** X18.  With [show_func] bound in the module's namespace, [show_text]
    returns without raising exactly when every target is left out, its file
    missing or its total zero under [stripzeros]: a report with a block to
    render always ends in an exception. *)
Theorem show_text_returns_only_without_blocks (src : source_text)
    (globals : namespace) (stats : gmap key (list linestat))
    unit output_unit stream stripzeros log :
  binds_show_func src globals ->
  (show_text globals stats unit output_unit stream stripzeros log).2 = Returned ()
  <-> forall k timings, stats !! k = Some timings -> skipped src stripzeros (k, timings).
Proof.
  intros Hbind. unfold show_text, bind.
  assert (Hw : forall text, exists log',
             write (default Stdout stream) text log = (log', Returned ())) by (eexists; reflexivity).
  destruct (Hw (timer_unit_line (default unit output_unit))) as [log' Hlog'].
  assert (Hhead : match output_unit with
                  | Some ou => write (default Stdout stream) (timer_unit_line ou)
                  | None => write (default Stdout stream) (timer_unit_line unit)
                  end log = (log', Returned ())) by (destruct output_unit; exact Hlog').
  rewrite Hhead.
  rewrite (for_each_returns (skipped src stripzeros)).
  - rewrite Forall_forall. split.
    + intros H k timings Hk. apply (H (k, timings)).
      apply list_elem_of_In. now apply sorted_items_lookup.
    + intros H [k timings] Hin. apply H.
      apply list_elem_of_In in Hin. now apply sorted_items_lookup.
  - intros [[[fn lineno] name] timings] s Hin.
    apply sorted_items_lookup in Hin.
    unfold bind, load_global, getitem, as_report_function. rewrite Hbind, Hin. cbn.
    apply show_func_returns_when.
Qed.

Lemma show_text_returns_only_without_blocks_witness :
  binds_show_func one_file patched_globals
  /\ ((show_text patched_globals quiet_targets microsecond None None true []).2
      = Returned ()
      <-> forall k timings,
          quiet_targets !! k = Some timings -> skipped one_file true (k, timings)).
Proof.
  assert (H : binds_show_func one_file patched_globals) by reflexivity.
  split; [exact H|].
  exact (show_text_returns_only_without_blocks one_file patched_globals quiet_targets
           microsecond None None true [] H).
Defined.



End ReportCoverage.

(** * Properties of [add_module] *)
Section RegistrationCoverage.
Import Tracer Registration Relating2 Examples2.

Lemma add_members_run members :
  forall acc,
    let r := add_members members acc in
    enable_count r.1 = enable_count acc.1
    /\ trace r.1 = trace acc.1
    /\ functions r.1 = functions acc.1 ++ member_functions members
    /\ r.2 = acc.2 + Z.of_nat (length (member_functions members)).
Proof.
  unfold add_members, member_functions.
  induction members as [|[k v] rest IH]; intros acc; cbn zeta.
  - cbn. rewrite app_nil_r. repeat split; lia.
  - cbn [fold_left flat_map]. cbn [snd].
    destruct v as [n|n ms|w]; cbn [isfunction object_name].
    + specialize (IH (add_function n acc.1, acc.2 + 1)). cbn zeta in IH.
      destruct IH as (Hc & Ht & Hf & Hn). cbn [fst snd] in *.
      split; [exact Hc|]. split; [exact Ht|]. split.
      * rewrite Hf. cbn. now rewrite <- app_assoc.
      * rewrite Hn. cbn [app length]. lia.
    + apply IH.
    + apply IH.
Qed.

Lemma add_module_run mod_dict :
  forall acc,
    let step := fun acc (entry : string * pyobject) =>
      let item := entry.2 in
      if isclass item then add_members (class_dict item) acc
      else if isfunction item
           then (add_function (object_name item) acc.1, acc.2 + 1)
           else acc in
    let r := fold_left step mod_dict acc in
    enable_count r.1 = enable_count acc.1
    /\ trace r.1 = trace acc.1
    /\ functions r.1 = functions acc.1 ++ direct_functions mod_dict
    /\ r.2 = acc.2 + Z.of_nat (length (direct_functions mod_dict)).
Proof.
  unfold direct_functions.
  induction mod_dict as [|[k item] rest IH]; intros acc; cbn zeta.
  - cbn. rewrite app_nil_r. repeat split; lia.
  - cbn [fold_left flat_map]. cbn [snd].
    destruct item as [n|n ms|w]; cbn [isclass isfunction object_name class_dict].
    + specialize (IH (add_function n acc.1, acc.2 + 1)). cbn zeta in IH.
      destruct IH as (Hc & Ht & Hf & Hn). cbn [fst snd] in *.
      split; [exact Hc|]. split; [exact Ht|]. split.
      * rewrite Hf. cbn. now rewrite <- app_assoc.
      * rewrite Hn. cbn [app length]. lia.
    + specialize (IH (add_members ms acc)). cbn zeta in IH.
      destruct IH as (Hc & Ht & Hf & Hn).
      destruct (add_members_run ms acc) as (Hc' & Ht' & Hf' & Hn').
      split; [now rewrite Hc|]. split; [now rewrite Ht|]. split.
      * rewrite Hf, Hf'. now rewrite <- app_assoc.
      * rewrite Hn, Hn', length_app. lia.
    + apply IH.
Qed.

(** X20.  [add_module] returns the number of functions it registered: the
    list of registered functions grows by that many names, added at its end,
    and no bracket is entered or left. *)
Theorem add_module_counts_what_it_registers mod_dict t :
  let r := add_module mod_dict t in
  exists added,
    functions r.1 = functions t ++ added
    /\ r.2 = Z.of_nat (length added)
    /\ enable_count r.1 = enable_count t
    /\ trace r.1 = trace t.
Proof.
  cbn zeta. unfold add_module.
  destruct (add_module_run mod_dict (t, 0)) as (Hc & Ht & Hf & Hn).
  exists (direct_functions mod_dict). cbn [fst snd] in *. repeat split; auto.
Qed.

Lemma in_member_functions name members :
  In name (member_functions members) <-> exists k, In (k, OFunction name) members.
Proof.
  unfold member_functions. rewrite in_flat_map. split.
  - intros ([k v] & Hin & Hname). cbn in Hname.
    destruct v as [n|n ms|w]; cbn in Hname; try contradiction.
    destruct Hname as [<-|[]]. eauto.
  - intros (k & Hin). exists (k, OFunction name). split; [assumption | now left].
Qed.

(** X21.  The functions that [add_module] registers are the functions that
    are items of the module and the functions that are direct members of a
    class of the module, and no others: not a [classmethod] or [staticmethod]
    member, and not the members of a class nested in a class. *)
Theorem add_module_registers_one_level mod_dict t name :
  In name (drop (length (functions t)) (functions (add_module mod_dict t).1))
  <-> (exists k, In (k, OFunction name) mod_dict)
      \/ (exists k c members k',
             In (k, OClass c members) mod_dict /\ In (k', OFunction name) members).
Proof.
  unfold add_module.
  destruct (add_module_run mod_dict (t, 0)) as (_ & _ & Hf & _).
  cbn [fst snd] in Hf. rewrite Hf, drop_app_length.
  unfold direct_functions. rewrite in_flat_map. split.
  - intros ([k item] & Hin & Hname). cbn in Hname.
    destruct item as [n|c ms|w]; cbn in Hname.
    + destruct Hname as [<-|[]]. left. eauto.
    + right. apply (in_member_functions name ms) in Hname as (k' & Hk').
      exists k, c, ms, k'. auto.
    + contradiction.
  - intros [(k & Hin) | (k & c & ms & k' & Hin & Hmem)].
    + exists (k, OFunction name). split; [assumption | now left].
    + exists (k, OClass c ms). split; [assumption|]. cbn.
      apply (in_member_functions name ms). eauto.
Qed.

End RegistrationCoverage.
